(** * adeline: a multi-agent chat front end (src/index.ts)

    A shallow embedding of [src/index.ts].  The file has three layers:

    - the pure functions of the source (instruction builder and the local
      tools), translated one to one;
    - the behaviour of the agents runtime the source calls into ([run],
      [connect], [close]), which is not part of [src/] and is modelled
      from the specification;
    - the interactive shell of the source ([runChat], [main] and the
      top-level [main().catch]), as a small monad of process effects
      over an explicit environment. *)

From Stdlib Require Import String Ascii List Bool Arith ZArith Lia.
Import ListNotations.
Local Open Scope string_scope.
Local Open Scope list_scope.

(** ** JavaScript helpers *)

Module JS.

(** [ToBoolean] on a value of type [string]: only the empty string is
      falsy. *)
Definition truthy (s : string) : bool :=
    match s with
    | EmptyString => false
    | String _ _ => true
    end.

(** [ToBoolean] on a value of type [string | undefined]. *)
Definition truthy_opt (o : option string) : bool :=
    match o with
    | None => false
    | Some s => truthy s
    end.

(** [s.includes(sub)] *)
Definition includes (sub s : string) : bool :=
    match String.index 0 sub s with
    | Some _ => true
    | None => false
    end.

(** The line feed character, written [\n] in the source. *)
Definition nl : string := String (ascii_of_nat 10) EmptyString.

End JS.

(** ** Run contexts (index.ts, lines 40-42 and 78-81, 138) *)

Record RunContext (T : Type) : Type := mkRunContext { context : T }.
Arguments mkRunContext {T} _.
Arguments context {T} _.

Record UserContext : Type := mkUserContext { uc_name : string }.

Record UserInfo : Type := mkUserInfo { name : string; uid : Z }.

Definition userInfo : UserInfo := {| name := "John"; uid := 123 |}.

(** TypeScript's structural subtyping: a [UserInfo] is a [UserContext]. *)
Definition asUserContext (u : UserInfo) : UserContext :=
  {| uc_name := name u |}.

(** ** Instruction builder (index.ts, lines 44-48) *)

Definition buildInstructions (runContext : RunContext UserContext) : string :=
  if JS.truthy (uc_name (context runContext))
  then "The user's name is " ++ uc_name (context runContext) ++ ". Be extra friendly!"
  else "You are a helpful assistant".

(** ** Local tools (index.ts, lines 83-136) *)

(** Tool arguments are JSON objects whose fields are strings here. *)
Definition Args : Type := list (string * string).

Fixpoint field (k : string) (a : Args) : option string :=
  match a with
  | [] => None
  | (k', v) :: rest => if String.eqb k k' then Some v else field k rest
  end.

Module fetchUserAge.
(** [runContext] is an optional parameter; [runContext?.context.name]
      is [undefined] when it is absent, which a template literal prints
      as the word undefined. *)
Definition execute (_args : Args) (runContext : option (RunContext UserInfo))
    : string :=
    "User "
      ++ match runContext with
         | Some rc => name (context rc)
         | None => "undefined"
         end
      ++ " is 47 years old".

Definition name : string := "fetch_user_age".
Definition description : string := "Return the age of the current user".
End fetchUserAge.

Module historyFunFact.
Definition name : string := "history_fun_fact".
Definition description : string := "Give a fun fact about a historical event".
Definition execute : string := "Sharks are older than trees.".
End historyFunFact.

Module getWeather.
Definition name : string := "get_weather".
Definition description : string := "Return the weather for a given city.".

Definition needsApproval (_context : RunContext UserInfo) (city : string)
    : bool :=
    String.eqb city "San Francisco".

Definition execute (city : string) : string :=
    "The weather in " ++ city ++ " is sunny.".
End getWeather.

(** ** Conversation history *)

(** Modelled from the spec: what a tool result carries.  The type is the
    runtime's; sections 4.2 and 7 name the returned value, an error
    payload and a rejection marker. *)
Inductive ToolPayload : Type :=
| Output (text : string)
| ErrorPayload (error : string)
| RejectionMarker.

(** Modelled from the spec: the item type [AgentInputItem] is declared by
    the agents runtime, not under [src/]; section 3 gives it as this
    tagged variant. *)
Inductive HistoryItem : Type :=
| UserMessage (text : string)
| AssistantMessage (text : string)
| ToolCall (toolName : string) (args : Args) (callId : string)
| ToolResult (callId : string) (output : ToolPayload)
| HandoffEvent (from to : string).

Definition History : Type := list HistoryItem.

(** The runtime's [user(text)] helper builds a user message item. *)
Definition user (text : string) : HistoryItem := UserMessage text.

(** Modelled from the spec: the result type of [run] is the runtime's;
    section 3 gives its two fields, which are the two the source reads. *)
Record RunResult : Type := mkRunResult
  { finalOutput : option string; history : History }.

(** [result.history], under a name that a local [history] does not hide. *)
Abbreviation result_history := history (only parsing).

(** ** Tool and agent descriptors (index.ts, lines 50-54 and 138-195) *)

Record Tool : Type := mkTool
  { tool_name : string;
    tool_description : string;
    tool_needsApproval : option (RunContext UserInfo -> Args -> bool);
    tool_execute : Args -> option (RunContext UserInfo) -> ToolPayload }.

Definition fetchUserAgeTool : Tool :=
  {| tool_name := fetchUserAge.name;
     tool_description := fetchUserAge.description;
     tool_needsApproval := None;
     tool_execute := fun a rc => Output (fetchUserAge.execute a rc) |}.

Definition historyFunFactTool : Tool :=
  {| tool_name := historyFunFact.name;
     tool_description := historyFunFact.description;
     tool_needsApproval := None;
     tool_execute := fun _ _ => Output historyFunFact.execute |}.

(** [get_weather] declares the parameter schema [{ city: string }]; a
    call without a [city] field does not pass the schema, and reaches
    neither [needsApproval] nor [execute]. *)
Definition getWeatherTool : Tool :=
  {| tool_name := getWeather.name;
     tool_description := getWeather.description;
     tool_needsApproval :=
       Some (fun ctx a =>
               match field "city" a with
               | Some city => getWeather.needsApproval ctx city
               | None => false
               end);
     tool_execute :=
       fun a _ =>
         match field "city" a with
         | Some city => Output (getWeather.execute city)
         | None => ErrorPayload "InvalidArguments"
         end |}.

Inductive Server : Type := mcpHttpServer | mcpFilesystemServer.

Definition server_name (s : Server) : string :=
  match s with
  | mcpHttpServer => "GitMCP Documentation Server"
  | mcpFilesystemServer => "Filesystem MCP Server, via npx"
  end.

Inductive Instructions : Type :=
| StaticInstructions (text : string)
| ComputedInstructions (build : RunContext UserContext -> string).

Definition DEFAULT_MODEL : string := "qwen3:4b".

(** Handoff targets are kept by agent name and resolved in [agents]. *)
Record Agent : Type := mkAgent
  { agent_name : string;
    agent_model : string;
    agent_instructions : Instructions;
    agent_temperature : option Z;
    agent_tools : list Tool;
    agent_mcpServers : list Server;
    agent_handoffs : list string }.

Definition assistantAgent : Agent :=
  {| agent_name := "Assistant";
     agent_model := DEFAULT_MODEL;
     agent_instructions := ComputedInstructions buildInstructions;
     agent_temperature := None;
     agent_tools := [];
     agent_mcpServers := [];
     agent_handoffs := [] |}.

Definition userAgeAgent : Agent :=
  {| agent_name := "User Age Assistant";
     agent_model := DEFAULT_MODEL;
     agent_instructions :=
       StaticInstructions "You provide assistance with questions to the user's age.";
     agent_temperature := None;
     agent_tools := [fetchUserAgeTool];
     agent_mcpServers := [];
     agent_handoffs := [] |}.

Definition weatherAgent : Agent :=
  {| agent_name := "Weather bot";
     agent_model := DEFAULT_MODEL;
     agent_instructions := StaticInstructions "You are a helpful weather bot.";
     agent_temperature := Some 0%Z;
     agent_tools := [getWeatherTool];
     agent_mcpServers := [mcpHttpServer];
     agent_handoffs := [] |}.

Definition historyTutorAgent : Agent :=
  {| agent_name := "History Tutor";
     agent_model := DEFAULT_MODEL;
     agent_instructions :=
       StaticInstructions
         "You provide assistance with historical queries. Explain important events and context clearly.";
     agent_temperature := None;
     agent_tools := [historyFunFactTool];
     agent_mcpServers := [];
     agent_handoffs := [] |}.

Definition mathTutorAgent : Agent :=
  {| agent_name := "Math Tutor";
     agent_model := DEFAULT_MODEL;
     agent_instructions :=
       StaticInstructions
         "You provide help with math problems. Explain your reasoning at each step and include examples";
     agent_temperature := None;
     agent_tools := [];
     agent_mcpServers := [];
     agent_handoffs := [] |}.

Definition fileSystemAgent : Agent :=
  {| agent_name := "FS MCP Assistant";
     agent_model := DEFAULT_MODEL;
     agent_instructions :=
       StaticInstructions
         "Use the tools to read the filesystem and answer questions based on those files. If you are unable to find any files, you can say so instead of assuming they exist.";
     agent_temperature := None;
     agent_tools := [];
     agent_mcpServers := [mcpFilesystemServer];
     agent_handoffs := [] |}.

Definition triageAgent : Agent :=
  {| agent_name := "Triage Agent";
     agent_model := DEFAULT_MODEL;
     agent_instructions :=
       StaticInstructions
         "You determine which agent to use based on the user's homework question";
     agent_temperature := None;
     agent_tools := [];
     agent_mcpServers := [];
     agent_handoffs :=
       [ agent_name fileSystemAgent;
         agent_name historyTutorAgent;
         agent_name mathTutorAgent;
         agent_name userAgeAgent;
         agent_name weatherAgent ] |}.

(** Every agent the source constructs. *)
Definition agents : list Agent :=
  [ assistantAgent; userAgeAgent; weatherAgent; historyTutorAgent;
    mathTutorAgent; fileSystemAgent; triageAgent ].

(** A settled promise: fulfilled with a value or rejected with an error. *)
Inductive Settled (A : Type) : Type :=
| Fulfilled (value : A)
| RejectedWith (error : string).
Arguments Fulfilled {A} _.
Arguments RejectedWith {A} _.

(** ** Capability server client

    [MCPServerStreamableHttp] and [MCPServerStdio] are classes of the
    agents runtime; [src/] constructs the two servers and calls their
    [connect] and [close]. *)

Module CapabilityServer.

(** Modelled from the spec: the connection states of section 3. *)
Inductive ConnectionState : Type :=
| Disconnected | Connecting | Connected | Closed.

(** Modelled from the spec: a client owns exactly one transport handle
    (section 3); the runtime's class is absent from [src/]. *)
Record Client : Type := mkClient
  { connectionState : ConnectionState;
    transport : option nat (* the open transport handle, if any *) }.

(** Modelled from the spec: a client before its [connect()]. *)
Definition fresh : Client :=
  {| connectionState := Disconnected; transport := None |}.

(** Modelled from the spec: the runtime's [connect()], section 4.1; it
    establishes the transport or fails.  [handshake] is what the remote
    end makes of the attempt, [None] for success and [Some e] for a
    transport failure or timeout. *)
Definition connect (handshake : option string) (c : Client)
  : Settled unit * Client :=
  match handshake with
  | None =>
      (Fulfilled tt, {| connectionState := Connected; transport := Some 0 |})
  | Some e =>
      (RejectedWith e, {| connectionState := Disconnected; transport := None |})
  end.

(** Modelled from the spec: the runtime's [close()], section 4.1; it
    tears down the transport, is idempotent and never raises. *)
Definition close (c : Client) : Settled unit * Client :=
  (Fulfilled tt, {| connectionState := Closed; transport := None |}).

End CapabilityServer.

(** ** Orchestration loop

    [run] is the runner of the agents runtime, absent from [src/].  This
    module follows sections 4.2, 4.4 and 6 of the specification: the
    approval gate of the tool invoker and the state machine AwaitingModel,
    InterpretingResponse, ExecutingTools, ExecutingHandoff and Terminal,
    bounded by a turn budget.  Remote tools proxied through a capability
    server are left out. *)

Module Runner.

(** Modelled from the spec: a tool-call request of the model, section 6;
    the type is the runtime's. *)
Record Call : Type := mkCall
  { call_id : string; call_name : string; call_args : Args }.

(** Modelled from the spec: the three responses of the model backend,
    section 6; the type is the runtime's. *)
Inductive ModelResponse : Type :=
| Message (text : string)
| ToolCalls (calls : list Call)
| Handoff (target : string).

(** Modelled from the spec: the request sent to the model backend,
    section 6; the type is the runtime's. *)
Record Request : Type := mkRequest
  { req_instructions : string;
    req_tools : list (string * string);
    req_history : History;
    req_temperature : option Z }.

(** Modelled from the spec: how a run ends (sections 4.2, 4.4 and 7). *)
Inductive Status : Type :=
| Completed (text : string)
| AwaitingApproval (pending : list Call)
| MaxTurnsExceeded
| ModelBackendError (error : string).

(** Modelled from the spec: what a run of the runtime's runner yields,
    its status and the history accumulated (sections 3 and 4.4). *)
Record Outcome : Type := mkOutcome
  { status : Status; accumulated : History }.

(** Modelled from the spec: [RunResult.finalOutput] of the runtime,
    section 3: non-null only for a terminal response. *)
Definition finalOutputOf (o : Outcome) : option string :=
  match status o with
  | Completed text => Some text
  | _ => None
  end.

(** Modelled from the spec: the runner's state between two model calls,
    the active agent and the history (section 4.4). *)
Record Config : Type := mkConfig
  { active : Agent; hist : History }.

(** Modelled from the spec: what the runtime's invoker makes of a call,
    section 4.2: suspended for approval, or resolved to a result. *)
Inductive Invocation : Type :=
| PendingApproval
| Resolved (payload : ToolPayload).

(** Modelled from the spec: the runtime's [renderInstructions(context)],
    section 4.3. *)
Definition renderInstructions (a : Agent) (ctx : RunContext UserInfo) : string :=
  match agent_instructions a with
  | StaticInstructions text => text
  | ComputedInstructions build =>
      build (mkRunContext (asUserContext (context ctx)))
  end.

(** Modelled from the spec: the tool catalogue the runtime sends with a
    model call, section 4.4 (local tools). *)
Definition catalogue (a : Agent) : list (string * string) :=
  map (fun t => (tool_name t, tool_description t)) (agent_tools a).

(** Modelled from the spec: the runtime's lookup of a requested tool in
    the agent's namespace, section 4.2. *)
Definition resolveTool (a : Agent) (n : string) : option Tool :=
  find (fun t => String.eqb (tool_name t) n) (agent_tools a).

(** Modelled from the spec: the runtime's lookup of a handoff target. *)
Definition resolveAgent (registry : list Agent) (n : string) : option Agent :=
  find (fun a => String.eqb (agent_name a) n) registry.

Section Run.

Variable registry : list Agent.
Variable backend : Request -> Settled ModelResponse.
Variable ctx : RunContext UserInfo.
(** The external approval decisions recorded so far, by call id. *)
Variable decisions : string -> option bool.
Variable maxTurns : nat.

(** Modelled from the spec: the request of the AwaitingModel state,
    section 4.4, built by the runtime. *)
Definition request (cfg : Config) : Request :=
  {| req_instructions := renderInstructions (active cfg) ctx;
     req_tools := catalogue (active cfg);
     req_history := hist cfg;
     req_temperature := agent_temperature (active cfg) |}.

(** Modelled from the spec: the runtime's tool invoker, section 4.2:
    resolve the tool, apply the approval gate, execute. *)
Definition invoke (a : Agent) (c : Call) : Invocation :=
  match resolveTool a (call_name c) with
  | None => Resolved (ErrorPayload "UnknownTool")
  | Some t =>
      let gated :=
        match tool_needsApproval t with
        | Some needs => needs ctx (call_args c)
        | None => false
        end in
      if gated then
        match decisions (call_id c) with
        | None => PendingApproval
        | Some true => Resolved (tool_execute t (call_args c) (Some ctx))
        | Some false => Resolved RejectionMarker
        end
      else Resolved (tool_execute t (call_args c) (Some ctx))
  end.

(** Modelled from the spec: the runtime's ExecutingTools state, section
    4.4: the items appended to history, in the order the model issued the
    calls, and the calls left pending approval.  A call held for approval
    is not yet part of the history: sections 3 and 8 pair every tool call
    in the history with its result, and a suspended call has none. *)
Fixpoint dispatch (a : Agent) (calls : list Call) : History * list Call :=
  match calls with
  | [] => ([], [])
  | c :: rest =>
      let (items, pending) := dispatch a rest in
      let issued := ToolCall (call_name c) (call_args c) (call_id c) in
      match invoke a c with
      | Resolved payload =>
          (issued :: ToolResult (call_id c) payload :: items, pending)
      | PendingApproval => (items, c :: pending)
      end
  end.

(** Modelled from the spec: one AwaitingModel iteration of the runtime's
    runner, section 4.4: either the next configuration or the outcome of
    the run. *)
Definition turn (cfg : Config) : Config + Outcome :=
  match backend (request cfg) with
  | RejectedWith e =>
      inr {| status := ModelBackendError e; accumulated := hist cfg |}
  | Fulfilled (Message text) =>
      inr {| status := Completed text;
             accumulated := hist cfg ++ [AssistantMessage text] |}
  | Fulfilled (ToolCalls calls) =>
      let (items, pending) := dispatch (active cfg) calls in
      match pending with
      | [] => inl {| active := active cfg; hist := hist cfg ++ items |}
      | _ :: _ =>
          inr {| status := AwaitingApproval pending;
                 accumulated := hist cfg ++ items |}
      end
  | Fulfilled (Handoff target) =>
      let invalid :=
        {| active := active cfg;
           hist := hist cfg ++ [ToolResult target (ErrorPayload "InvalidHandoff")] |} in
      if existsb (String.eqb target) (agent_handoffs (active cfg)) then
        match resolveAgent registry target with
        | Some next =>
            inl {| active := next;
                   hist := hist cfg ++ [HandoffEvent (agent_name (active cfg)) target] |}
        | None => inl invalid
        end
      else inl invalid
  end.

(** Modelled from the spec: the runtime's run loop under the turn-budget
    guard of section 4.4. *)
Fixpoint loop (budget : nat) (cfg : Config) : Outcome :=
  match budget with
  | O => {| status := MaxTurnsExceeded; accumulated := hist cfg |}
  | S remaining =>
      match turn cfg with
      | inl next => loop remaining next
      | inr done => done
      end
  end.

(** Modelled from the spec: the runtime's [run(agent, history)]. *)
Definition run (start : Agent) (input : History) : Outcome :=
  loop maxTurns {| active := start; hist := input |}.

(** Modelled from the spec: [turns n cfg] is the configuration of the
    runtime's runner after [n] AwaitingModel iterations, or the outcome
    that ended the run before. *)
Fixpoint turns (n : nat) (cfg : Config) : Config + Outcome :=
  match n with
  | O => inl cfg
  | S k =>
      match turn cfg with
      | inl next => turns k next
      | inr done => inr done
      end
  end.


End Run.

End Runner.

(** ** The process: effects, environment and the source's shell *)

Module Process.

(** What the process does that the outside can observe, in order. *)
Inductive Event : Type :=
| EvConnect (s : Server) (r : Settled unit)
| EvClose (s : Server)
| EvRun (input : History) (r : Settled RunResult)
| EvQuestion (query answer : string)
| EvStdoutWrite (text : string)
| EvRlClose
| EvConsoleError (error : string)
| EvExit (code : Z).

(** What the process is run against: the terminal, the capability
    servers and the runtime's [run].  [run n h] is the result of the
    [n]-th call [run(triageAgent, h, {stream: false, context: userInfo})];
    [question n q] is the line read by the [n]-th [rl.question(q)] that
    is answered.  [JSON_stringify] is JavaScript's [JSON.stringify] on a
    history.  On piped input, [lateEnd] tells whether standard input ends
    after [main] has registered its ["end"] listener, so that the
    listener runs; when the input ends earlier, during the two
    [connect()] calls, the listener never runs. *)
Record Env : Type := mkEnv
  { isTTY : bool;
    stdinInput : string;
    lateEnd : bool;
    handshake : Server -> option string;
    run : nat -> History -> Settled RunResult;
    question : nat -> string -> string;
    JSON_stringify : History -> string }.

Record Proc : Type := mkProc
  { runs : nat;
    questions : nat;
    http : CapabilityServer.Client;
    fs : CapabilityServer.Client;
    endHandler : bool (* process.stdin.on("end", ...) is registered *);
    rlClosed : bool (* the line reader [rl] of lines 22-25 has closed *) }.

Definition count_run (p : Proc) : Proc :=
  {| runs := S (runs p); questions := questions p; http := http p;
     fs := fs p; endHandler := endHandler p; rlClosed := rlClosed p |}.

Definition count_question (p : Proc) : Proc :=
  {| runs := runs p; questions := S (questions p); http := http p;
     fs := fs p; endHandler := endHandler p; rlClosed := rlClosed p |}.

(** The line reader closes: by [rl.close()], or by itself when its
    input, standard input, ends. *)
Definition close_rl (p : Proc) : Proc :=
  {| runs := runs p; questions := questions p; http := http p;
     fs := fs p; endHandler := endHandler p; rlClosed := true |}.

Definition boot : Proc :=
  {| runs := 0; questions := 0;
     http := CapabilityServer.fresh; fs := CapabilityServer.fresh;
     endHandler := false; rlClosed := false |}.

(** How a piece of code ends: it returns, it throws, it has called
    [process.exit], or it is still running when the fuel is spent. *)
Inductive Completion (A : Type) : Type :=
| Normal (value : A)
| Throw (error : string)
| Exit (code : Z)
| Pending.
Arguments Normal {A} _.
Arguments Throw {A} _.
Arguments Exit {A} _.
Arguments Pending {A}.

Definition Prog (A : Type) : Type := Proc -> Completion A * Proc * list Event.

Definition ret {A} (a : A) : Prog A := fun p => (Normal a, p, []).

Definition bind {A B} (c : Prog A) (k : A -> Prog B) : Prog B :=
  fun p =>
    match c p with
    | (Normal a, p1, t1) =>
        match k a p1 with
        | (r, p2, t2) => (r, p2, t1 ++ t2)
        end
    | (Throw e, p1, t1) => (Throw e, p1, t1)
    | (Exit code, p1, t1) => (Exit code, p1, t1)
    | (Pending, p1, t1) => (Pending, p1, t1)
    end.

Notation "x <- c ;; k" := (bind c (fun x => k))
  (at level 61, c at next level, right associativity).
Notation "c ;; k" := (bind c (fun _ => k))
  (at level 61, right associativity).

Definition throw {A} (e : string) : Prog A := fun p => (Throw e, p, []).

Definition pending {A} : Prog A := fun p => (Pending, p, []).

(** [try { body } finally { cleanup }]: the cleanup runs when the body
    returns or throws; it does not run once [process.exit] has ended the
    process, nor before the body is over. *)
Definition try_finally {A} (body : Prog A) (cleanup : Prog unit) : Prog A :=
  fun p =>
    match body p with
    | (Exit code, p1, t1) => (Exit code, p1, t1)
    | (Pending, p1, t1) => (Pending, p1, t1)
    | (r, p1, t1) =>
        match cleanup p1 with
        | (Normal _, p2, t2) => (r, p2, t1 ++ t2)
        | (Throw e, p2, t2) => (Throw e, p2, t1 ++ t2)
        | (Exit code, p2, t2) => (Exit code, p2, t1 ++ t2)
        | (Pending, p2, t2) => (Pending, p2, t1 ++ t2)
        end
    end.

(** [promise.catch(handler)] *)
Definition catch {A} (body : Prog A) (handler : string -> Prog A) : Prog A :=
  fun p =>
    match body p with
    | (Throw e, p1, t1) =>
        match handler e p1 with
        | (r, p2, t2) => (r, p2, t1 ++ t2)
        end
    | other => other
    end.

Definition client (s : Server) (p : Proc) : CapabilityServer.Client :=
  match s with
  | mcpHttpServer => http p
  | mcpFilesystemServer => fs p
  end.

Definition set_client (s : Server) (c : CapabilityServer.Client) (p : Proc)
  : Proc :=
  match s with
  | mcpHttpServer =>
      {| runs := runs p; questions := questions p; http := c; fs := fs p;
         endHandler := endHandler p; rlClosed := rlClosed p |}
  | mcpFilesystemServer =>
      {| runs := runs p; questions := questions p; http := http p; fs := c;
         endHandler := endHandler p; rlClosed := rlClosed p |}
  end.

Section Program.

Variable env : Env.

(** [await server.connect()] *)
Definition connect (s : Server) : Prog unit :=
  fun p =>
    match CapabilityServer.connect (handshake env s) (client s p) with
    | (Fulfilled u, c) =>
        (Normal u, set_client s c p, [EvConnect s (Fulfilled u)])
    | (RejectedWith e, c) =>
        (Throw e, set_client s c p, [EvConnect s (RejectedWith e)])
    end.

(** [await server.close()] *)
Definition close (s : Server) : Prog unit :=
  fun p =>
    match CapabilityServer.close (client s p) with
    | (Fulfilled u, c) => (Normal u, set_client s c p, [EvClose s])
    | (RejectedWith e, c) => (Throw e, set_client s c p, [EvClose s])
    end.

(** [await run(triageAgent, history, {stream: false, context: userInfo})] *)
Definition run_triage (h : History) : Prog RunResult :=
  fun p =>
    let r := run env (runs p) h in
    match r with
    | Fulfilled res => (Normal res, count_run p, [EvRun h r])
    | RejectedWith e => (Throw e, count_run p, [EvRun h r])
    end.

(** [await rl.question(query)].  On a line reader that has closed the
    call is rejected with the error code ERR_USE_AFTER_CLOSE: nothing is
    printed and nothing is read. *)
Definition rl_question (query : string) : Prog string :=
  fun p =>
    if rlClosed p then (Throw "ERR_USE_AFTER_CLOSE", p, [])
    else
      let answer := question env (questions p) query in
      (Normal answer, count_question p, [EvQuestion query answer]).

Definition stdout_write (text : string) : Prog unit :=
  fun p => (Normal tt, p, [EvStdoutWrite text]).

Definition rl_close : Prog unit :=
  fun p => (Normal tt, close_rl p, [EvRlClose]).

Definition console_error (e : string) : Prog unit :=
  fun p => (Normal tt, p, [EvConsoleError e]).

Definition process_exit {A} (code : Z) : Prog A :=
  fun p => (Exit code, p, [EvExit code]).

(** [process.stdin.on("end", ...)] *)
Definition register_end_handler : Prog unit :=
  fun p =>
    (Normal tt,
     {| runs := runs p; questions := questions p; http := http p;
        fs := fs p; endHandler := true; rlClosed := rlClosed p |},
     []).

(** The [while (userPrompt !== "/bye")] loop of [runChat] (lines
    204-241); one unit of fuel per evaluation of the loop condition.
    [history] is rebound to [result.history] after every run, and the
    user's line is pushed onto that array. *)
Fixpoint chatLoop (fuel : nat) (history : History) (userPrompt : string)
  : Prog History :=
  match fuel with
  | O => pending
  | S fuel' =>
      if String.eqb userPrompt "/bye" then ret history
      else
        result <- run_triage history ;;
        let history := result_history result in
        match finalOutput result with
        | Some out =>
            if JS.truthy out then
              userPrompt <- rl_question
                (out ++ JS.nl ++ JS.nl ++ "----------" ++ JS.nl ++ JS.nl)%string ;;
              chatLoop fuel' (history ++ [user userPrompt]) userPrompt
            else chatLoop fuel' history userPrompt
        | None => chatLoop fuel' history userPrompt
        end
  end.

(** [runChat] (lines 197-247) *)
Definition runChat (fuel : nat) (actionPrompt : string) : Prog unit :=
  history <- chatLoop fuel [user actionPrompt] "" ;;
  stdout_write (JSON_stringify env history) ;;
  rl_close ;;
  process_exit 0.

(** The [try] block of [main] (lines 251-275) *)
Definition main_try (fuel : nat) : Prog unit :=
  connect mcpHttpServer ;;
  connect mcpFilesystemServer ;;
  register_end_handler ;;
  if isTTY env then
    actionPrompt <- rl_question
      ("What can I do for you?" ++ JS.nl ++ JS.nl)%string ;;
    if negb (JS.truthy actionPrompt) then throw "No input prompt provided"
    else runChat fuel actionPrompt
  else ret tt.

(** [main] (lines 249-280) *)
Definition main (fuel : nat) : Prog unit :=
  try_finally (main_try fuel)
    (close mcpHttpServer ;; close mcpFilesystemServer).

(** The ["end"] listener of standard input (lines 265-267).  A terminal
    does not end its input during the session.  A pipe does: when it ends
    after the listener was registered ([lateEnd]), the listener runs
    [runChat] on what was read since; the line reader [rl], which reads
    the same standard input and whose own listener came first, has closed
    by then.  When the pipe ends before, the listener never runs.  The
    listener is taken to run after [main] has settled: on piped input
    [main] has nothing to await between registering the listener and its
    [finally] block. *)
Definition stdin_end (fuel : nat) : Prog unit :=
  fun p =>
    if endHandler p && negb (isTTY env) && lateEnd env
    then runChat fuel (stdinInput env) (close_rl p)
    else ret tt p.

(** The module's top level: [main().catch((err) => console.error(err))]
    (line 282), then the event loop. *)
Definition program (fuel : nat) : Prog unit :=
  catch (main fuel) console_error ;;
  stdin_end fuel.

Definition execute (fuel : nat) : Completion unit * Proc * list Event :=
  program fuel boot.

End Program.

(** Projections of an execution. *)
Definition completion {A} (x : Completion A * Proc * list Event) : Completion A :=
  fst (fst x).
Definition final {A} (x : Completion A * Proc * list Event) : Proc :=
  snd (fst x).
Definition trace {A} (x : Completion A * Proc * list Event) : list Event :=
  snd x.

End Process.

(** ** Observations on traces *)

Module Observe.
Import Process.

Definition server_eqb (a b : Server) : bool :=
  match a, b with
  | mcpHttpServer, mcpHttpServer => true
  | mcpFilesystemServer, mcpFilesystemServer => true
  | _, _ => false
  end.

Definition is_run (e : Event) : bool :=
  match e with EvRun _ _ => true | _ => false end.

Definition is_question (e : Event) : bool :=
  match e with EvQuestion _ _ => true | _ => false end.

Definition is_close (s : Server) (e : Event) : bool :=
  match e with EvClose s' => server_eqb s s' | _ => false end.

(** How often [close()] was called on a server. *)
Definition closes (s : Server) (t : list Event) : nat :=
  length (filter (is_close s) t).

(** A run of the agents took place. *)
Definition ran (t : list Event) : bool := existsb is_run t.

(** The user was asked for a line. *)
Definition asked (t : list Event) : bool := existsb is_question t.

(** The events of the chat loop: runs and questions only. *)
Definition chat_event (e : Event) : bool := is_run e || is_question e.


(** Every question in the trace comes directly after a run that returned
    a truthy [finalOutput]; [prev] is the event before the trace. *)
Fixpoint prompts_guarded (prev : option Event) (t : list Event) : bool :=
  match t with
  | [] => true
  | e :: rest =>
      match e with
      | EvQuestion _ _ =>
          match prev with
          | Some (EvRun _ (Fulfilled r)) => JS.truthy_opt (finalOutput r)
          | _ => false
          end
      | _ => true
      end && prompts_guarded (Some e) rest
  end.

(** The query [runChat] asks with after a final output (line 236). *)
Definition prompt_of (out : string) : string :=
  (out ++ JS.nl ++ JS.nl ++ "----------" ++ JS.nl ++ JS.nl)%string.

(** The query [main] asks with on a terminal (line 270). *)
Definition first_prompt : string :=
  ("What can I do for you?" ++ JS.nl ++ JS.nl)%string.

Definition connected : CapabilityServer.Client :=
  {| CapabilityServer.connectionState := CapabilityServer.Connected;
     CapabilityServer.transport := Some 0 |}.

Definition closed : CapabilityServer.Client :=
  {| CapabilityServer.connectionState := CapabilityServer.Closed;
     CapabilityServer.transport := None |}.

(** The process state when [main] calls [runChat] on a terminal: both
    servers connected, the listeners registered, one question asked. *)
Definition at_chat : Proc :=
  {| runs := 0; questions := 1; http := connected; fs := connected;
     endHandler := true; rlClosed := false |}.

(** The process state when the ["end"] listener calls [runChat] on piped
    input: [main] is over and has closed both servers, and the line
    reader has closed with its input. *)
Definition at_piped_chat : Proc :=
  {| runs := 0; questions := 0; http := closed; fs := closed;
     endHandler := true; rlClosed := true |}.

(** What an execution shows: how it ended and what it did. *)
Definition observed {A} (x : Completion A * Proc * list Event)
  : Completion A * list Event :=
  (completion x, trace x).

(** The two [connect()] calls of [main], both successful. *)
Definition startup : list Event :=
  [EvConnect mcpHttpServer (Fulfilled tt);
   EvConnect mcpFilesystemServer (Fulfilled tt)].

(** The three events that end [runChat] (lines 244-246). *)
Definition farewell (env : Env) (h : History) : list Event :=
  [EvStdoutWrite (JSON_stringify env h); EvRlClose; EvExit 0].

(** The two [close()] calls of the [finally] block (lines 277-278). *)
Definition teardown : list Event :=
  [EvClose mcpHttpServer; EvClose mcpFilesystemServer].

End Observe.

(** ** Sample environments and backends, for the concrete runs below *)

Module Samples.
Import Process.

Definition dq : string := String (ascii_of_nat 34) EmptyString.

Definition quoted (s : string) : string := (dq ++ s ++ dq)%string.

Definition item_json (i : HistoryItem) : string :=
  match i with
  | UserMessage t => "{role:user,content:" ++ quoted t ++ "}"
  | AssistantMessage t => "{role:assistant,content:" ++ quoted t ++ "}"
  | ToolCall n _ id => "{call:" ++ quoted n ++ ",id:" ++ quoted id ++ "}"
  | ToolResult id _ => "{result:" ++ quoted id ++ "}"
  | HandoffEvent a b => "{handoff:" ++ quoted a ++ ",to:" ++ quoted b ++ "}"
  end%string.

(** A stand-in serialiser; the theorems hold for every [JSON_stringify]. *)
Definition stringify (h : History) : string :=
  ("[" ++ String.concat "," (map item_json h) ++ "]")%string.

Definition reachable : Server -> option string := fun _ => None.

Definition http_refused : Server -> option string :=
  fun s =>
    match s with
    | mcpHttpServer => Some "ECONNREFUSED"
    | mcpFilesystemServer => None
    end.

Definition fs_timeout : Server -> option string :=
  fun s =>
    match s with
    | mcpHttpServer => None
    | mcpFilesystemServer => Some "CapabilityServerTimeout"
    end.

(** An environment from a script: [replies] are the final outputs of the
    successive runs (or their rejections), [lines] what the user types. *)
Definition scripted (tty : bool) (piped : string)
  (hs : Server -> option string)
  (replies : list (Settled (option string))) (lines : list string) : Env :=
  {| isTTY := tty;
     stdinInput := piped;
     lateEnd := true;
     handshake := hs;
     run := fun n h =>
       match nth n replies (RejectedWith "ModelBackendError") with
       | Fulfilled out =>
           Fulfilled
             {| finalOutput := out;
                history := h ++ match out with
                                | Some t => [AssistantMessage t]
                                | None => []
                                end |}
       | RejectedWith e => RejectedWith e
       end;
     question := fun n _ => nth n lines "/bye";
     JSON_stringify := stringify |}.

(** A terminal session: one question, one answer, then the sentinel. *)
Definition session : Env :=
  scripted true "" reachable [Fulfilled (Some "Hello")] ["hi"; "/bye"].

(** The HTTP capability server refuses the connection. *)
Definition refused : Env :=
  scripted true "" http_refused [Fulfilled (Some "Hello")] ["hi"; "/bye"].

(** The subprocess capability server does not start in time. *)
Definition timed_out : Env :=
  scripted true "" fs_timeout [Fulfilled (Some "Hello")] ["hi"; "/bye"].

(** The user enters nothing at the first prompt. *)
Definition no_prompt : Env :=
  scripted true "" reachable [Fulfilled (Some "Hello")] [""].

(** The first run ends with an empty final output, the second with text. *)
Definition empty_output : Env :=
  scripted true "" reachable [Fulfilled (Some ""); Fulfilled (Some "Hello")]
    ["hi"; "/bye"].

(** The first run ends without final output, the second with text. *)
Definition null_output : Env :=
  scripted true "" reachable [Fulfilled None; Fulfilled (Some "Hello")]
    ["hi"; "/bye"].

(** The first run is rejected. *)
Definition run_rejected : Env :=
  scripted true "" reachable [RejectedWith "MaxTurnsExceeded"] ["hi"; "/bye"].

(** A model backend that answers at once, without any tool. *)
Definition curtBackend : Runner.Request -> Settled Runner.ModelResponse :=
  fun _ => Fulfilled (Runner.Message "I cannot tell.").

Definition ageCall : Runner.Call :=
  {| Runner.call_id := "call_1";
     Runner.call_name := "fetch_user_age";
     Runner.call_args := [] |}.

(** A model backend that routes the question to the user age assistant,
    calls its tool and repeats what the tool returned. *)
Definition ageBackend : Runner.Request -> Settled Runner.ModelResponse :=
  fun req =>
    match last (Runner.req_history req) (UserMessage "") with
    | UserMessage _ => Fulfilled (Runner.Handoff "User Age Assistant")
    | HandoffEvent _ _ => Fulfilled (Runner.ToolCalls [ageCall])
    | ToolResult _ (Output text) => Fulfilled (Runner.Message text)
    | _ => Fulfilled (Runner.Message "")
    end.

(** An agent whose only handoff target is itself, and a backend that
    always takes it. *)
Definition selfAgent : Agent :=
  {| agent_name := "Loop";
     agent_model := DEFAULT_MODEL;
     agent_instructions := StaticInstructions "Hand off.";
     agent_temperature := None;
     agent_tools := [];
     agent_mcpServers := [];
     agent_handoffs := ["Loop"] |}.

Definition handoffForever : Runner.Request -> Settled Runner.ModelResponse :=
  fun _ => Fulfilled (Runner.Handoff "Loop").


Definition noDecisions : string -> option bool := fun _ => None.

(** The request the runner sends for an agent and a history, under the
    context of the source. *)
Definition ask (a : Agent) (h : History) : Runner.Request :=
  Runner.request (mkRunContext userInfo)
    {| Runner.active := a; Runner.hist := h |}.



(** The same environment with standard input ending before [main] has
    registered its listener. *)
Definition early_end (env : Env) : Env :=
  {| isTTY := isTTY env;
     stdinInput := stdinInput env;
     lateEnd := false;
     handshake := handshake env;
     run := run env;
     question := question env;
     JSON_stringify := JSON_stringify env |}.

(** Piped input: the prompt comes from standard input. *)
Definition piped : Env :=
  scripted false "hi" reachable [Fulfilled (Some "Hello")] [].

(** Piped input, and a first run without final output. *)
Definition piped_silent : Env :=
  scripted false "hi" reachable [Fulfilled None; Fulfilled (Some "Hello")] [].


End Samples.

(** ** Counting events *)

Module Census.
Import Process.

Definition is_error (e : Event) : bool :=
  match e with EvConsoleError _ => true | _ => false end.

Definition is_exit (e : Event) : bool :=
  match e with EvExit _ => true | _ => false end.

Definition is_stdout (e : Event) : bool :=
  match e with EvStdoutWrite _ => true | _ => false end.

Definition is_connect (s : Server) (e : Event) : bool :=
  match e with EvConnect s' _ => Observe.server_eqb s s' | _ => false end.

(** How many events of a trace satisfy a test. *)
Definition count (f : Event -> bool) (t : list Event) : nat :=
  length (filter f t).

(** The ways an execution of the program can look: how it ends, what
    it does before the chat and what it does after it. *)
Definition shape (env : Env) (c : Completion unit) (pre post : list Event)
  : Prop :=
  (exists e,
      c = Normal tt
      /\ pre = [EvConnect mcpHttpServer (RejectedWith e)]
      /\ post = Observe.teardown ++ [EvConsoleError e])
  \/ (exists e,
         c = Normal tt
         /\ pre = [EvConnect mcpHttpServer (Fulfilled tt);
                   EvConnect mcpFilesystemServer (RejectedWith e)]
         /\ post = Observe.teardown ++ [EvConsoleError e])
  \/ (exists first e,
         c = Normal tt
         /\ pre = Observe.startup ++ [EvQuestion Observe.first_prompt first]
         /\ post = Observe.teardown ++ [EvConsoleError e])
  \/ (exists first h,
         c = Exit 0%Z
         /\ pre = Observe.startup ++ [EvQuestion Observe.first_prompt first]
         /\ post = Observe.farewell env h)
  \/ (exists first,
         c = Pending
         /\ pre = Observe.startup ++ [EvQuestion Observe.first_prompt first]
         /\ post = [])
  \/ (c = Normal tt
      /\ pre = Observe.startup ++ Observe.teardown
      /\ post = [])
  \/ (exists e,
         c = Throw e
         /\ pre = Observe.startup ++ Observe.teardown
         /\ post = [])
  \/ (c = Pending
      /\ pre = Observe.startup ++ Observe.teardown
      /\ post = []).

(** A terminal session of two exchanges before the sentinel. *)
Definition chatty : Env :=
  Samples.scripted true "" Samples.reachable
    [Fulfilled (Some "Hello"); Fulfilled (Some "Again")]
    ["hi"; "more"; "/bye"].

(** An agent that hands off to nobody. *)
Definition leaf (a : Agent) : bool :=
  match agent_handoffs a with
  | [] => true
  | _ :: _ => false
  end.

End Census.

(** * Properties *)

(** ** The instruction builder and the local tools *)

Lemma truthy_false_iff_empty (s : string) : JS.truthy s = false <-> s = "".
Proof. destruct s; simpl; split; intros H; congruence. Qed.

Lemma truthy_true_iff_nonempty (s : string) : JS.truthy s = true <-> s <> "".
Proof. destruct s; simpl; split; intros H; congruence. Qed.

(** C9.  [buildInstructions] is a total function of the run context with
    two forms of result: for a non-empty [name] the greeting with the name
    interpolated, and for the empty [name] (the only falsy value of type
    [string]) the fallback text; there is no third result. *)
Theorem buildInstructions_two_forms (runContext : RunContext UserContext) :
  (uc_name (context runContext) <> "" ->
   buildInstructions runContext
   = ("The user's name is " ++ uc_name (context runContext)
        ++ ". Be extra friendly!")%string)
  /\ (uc_name (context runContext) = "" ->
      buildInstructions runContext = "You are a helpful assistant")
  /\ (buildInstructions runContext
      = ("The user's name is " ++ uc_name (context runContext)
           ++ ". Be extra friendly!")%string
      \/ buildInstructions runContext = "You are a helpful assistant").
Proof.
  unfold buildInstructions.
  destruct (JS.truthy (uc_name (context runContext))) eqn:E.
  - apply truthy_true_iff_nonempty in E.
    repeat split; auto. intros H. contradiction.
  - apply truthy_false_iff_empty in E.
    repeat split; auto. intros H. contradiction.
Qed.

Lemma buildInstructions_two_forms_witness :
  buildInstructions (mkRunContext (mkUserContext "John"))
  = "The user's name is John. Be extra friendly!"
  /\ buildInstructions (mkRunContext (mkUserContext ""))
     = "You are a helpful assistant".
Proof.
  split.
  - apply (proj1 (buildInstructions_two_forms
                    (mkRunContext (mkUserContext "John")))).
    simpl. discriminate.
  - apply (proj1 (proj2 (buildInstructions_two_forms
                           (mkRunContext (mkUserContext ""))))).
    reflexivity.
Defined.

Lemma fetchUserAge_userInfo (a : Args) :
  fetchUserAge.execute a (Some (mkRunContext userInfo))
  = "User John is 47 years old".
Proof. reflexivity. Qed.

Lemma fetchUserAge_no_context (a : Args) :
  fetchUserAge.execute a None = "User undefined is 47 years old".
Proof. reflexivity. Qed.

Lemma needsApproval_iff (ctx : RunContext UserInfo) (city : string) :
  getWeather.needsApproval ctx city = true <-> city = "San Francisco".
Proof. unfold getWeather.needsApproval. apply String.eqb_eq. Qed.

(** ** The capability server client *)

Lemma close_client_fixed (c : CapabilityServer.Client) :
  snd (CapabilityServer.close (snd (CapabilityServer.close c)))
  = snd (CapabilityServer.close c).
Proof. reflexivity. Qed.

Lemma set_client_twice (s : Server) (c : CapabilityServer.Client)
  (p : Process.Proc) :
  Process.set_client s c (Process.set_client s c p) = Process.set_client s c p.
Proof. destruct s; reflexivity. Qed.

Lemma client_set_client (s : Server) (c : CapabilityServer.Client)
  (p : Process.Proc) :
  Process.client s (Process.set_client s c p) = c.
Proof. destruct s; reflexivity. Qed.

(** C7.  [close()] never raises and closing again changes nothing: on the
    client itself, on a client whose [connect()] failed, and for the
    [await server.close()] of the process, whose second call leaves the
    process state as the first left it. *)
Theorem close_idempotent :
  (forall c : CapabilityServer.Client,
      fst (CapabilityServer.close c) = Fulfilled tt
      /\ CapabilityServer.close (snd (CapabilityServer.close c))
         = (Fulfilled tt, snd (CapabilityServer.close c)))
  /\ (forall (e : string) (c : CapabilityServer.Client),
         let failed := snd (CapabilityServer.connect (Some e) c) in
         fst (CapabilityServer.connect (Some e) c) = RejectedWith e
         /\ fst (CapabilityServer.close failed) = Fulfilled tt
         /\ CapabilityServer.close (snd (CapabilityServer.close failed))
            = (Fulfilled tt, snd (CapabilityServer.close failed)))
  /\ (forall (s : Server) (p : Process.Proc),
         let once := Process.close s p in
         let twice := Process.close s (Process.final once) in
         Process.completion once = Process.Normal tt
         /\ Process.completion twice = Process.Normal tt
         /\ Process.final twice = Process.final once).
Proof.
  split; [| split].
  - intros c. split; reflexivity.
  - intros e c. simpl. repeat split; reflexivity.
  - intros s p. simpl.
    unfold Process.close, Process.completion, Process.final. simpl.
    repeat split. apply set_client_twice.
Qed.

(** ** The approval gate of [get_weather] *)

Section Gate.

Variable ctx : RunContext UserInfo.
Variable decisions : string -> option bool.




End Gate.



(** ** The turn budget *)

Section Budget.

Variable registry : list Agent.
Variable backend : Runner.Request -> Settled Runner.ModelResponse.
Variable ctx : RunContext UserInfo.
Variable decisions : string -> option bool.




(** No turn produces [MaxTurnsExceeded]: only the guard does. *)
Lemma turn_never_exceeds (cfg : Runner.Config) (done : Runner.Outcome) :
  Runner.turn registry backend ctx decisions cfg = inr done ->
  Runner.status done <> Runner.MaxTurnsExceeded.
Proof.
  unfold Runner.turn.
  destruct (backend (Runner.request ctx cfg)) as [[text | calls | target] | e].
  - intros H. injection H as <-. discriminate.
  - destruct (Runner.dispatch ctx decisions (Runner.active cfg) calls)
      as [items pending].
    destruct pending; [discriminate |].
    intros H. injection H as <-. discriminate.
  - destruct (existsb (String.eqb target) (agent_handoffs (Runner.active cfg)));
      [destruct (Runner.resolveAgent registry target) |]; discriminate.
  - intros H. injection H as <-. discriminate.
Qed.

Lemma loop_exceeded_only_by_guard (n : nat) :
  forall cfg,
    Runner.status (Runner.loop registry backend ctx decisions n cfg)
    = Runner.MaxTurnsExceeded ->
    exists next, Runner.turns registry backend ctx decisions n cfg = inl next.
Proof.
  induction n as [| n IH]; intros cfg; cbn [Runner.turns Runner.loop].
  - intros _. exists cfg. reflexivity.
  - destruct (Runner.turn registry backend ctx decisions cfg)
      as [mid | done] eqn:E.
    + apply IH.
    + intros H. apply turn_never_exceeds in E. contradiction.
Qed.

End Budget.


(** The same with no budget at all, whatever the model would answer. *)
Example no_budget_returns_the_input (input : History) :
  Runner.run agents Samples.curtBackend (mkRunContext userInfo)
    Samples.noDecisions 0 triageAgent input
  = {| Runner.status := Runner.MaxTurnsExceeded;
       Runner.accumulated := input |}.
Proof. reflexivity. Qed.



(** The self-referential agent exhausts every budget. *)
Lemma self_handoff_exceeds_every_budget (maxTurns : nat) (h : History) :
  Runner.status
    (Runner.run [Samples.selfAgent] Samples.handoffForever
       (mkRunContext userInfo) Samples.noDecisions maxTurns Samples.selfAgent h)
  = Runner.MaxTurnsExceeded.
Proof.
  unfold Runner.run. revert h.
  induction maxTurns as [| n IH]; intros h; [reflexivity |].
  cbn [Runner.loop]. unfold Runner.turn. simpl. apply IH.
Qed.

(** ** The age question *)

(** C2, as stated, fails: whatever the tool returns, the final output is
    the text of the model's last message; a model that answers at once
    gives a final output without "47". *)
Lemma final_output_is_the_models :
  ~ (forall (backend : Runner.Request -> Settled Runner.ModelResponse)
            (maxTurns : nat),
        exists out,
          Runner.finalOutputOf
            (Runner.run agents backend (mkRunContext userInfo)
               Samples.noDecisions maxTurns triageAgent
               [user "What is the age of the user?"])
          = Some out
          /\ JS.includes "47" out = true).
Proof.
  intros H. destruct (H Samples.curtBackend 10) as [out [Hout Hinc]].
  vm_compute in Hout. injection Hout as <-.
  vm_compute in Hinc. discriminate.
Qed.

(** C2, amended.  For the context [{name: "John", uid: 123}] the tool
    returns "User John is 47 years old", which contains "47".  In a run
    on the age question where the model hands off to the user age
    assistant, calls the tool and then answers with some text, that
    string is the tool result recorded in the history, and the final
    output is the model's text. *)
Theorem fetch_user_age_in_history
  (backend : Runner.Request -> Settled Runner.ModelResponse)
  (decisions : string -> option bool) (spare : nat) (id answer : string) :
  let h0 := [user "What is the age of the user?"] in
  let h1 := h0 ++ [HandoffEvent "Triage Agent" "User Age Assistant"] in
  let h2 := h1 ++ [ToolCall "fetch_user_age" [] id;
                   ToolResult id (Output "User John is 47 years old")] in
  backend (Samples.ask triageAgent h0)
  = Fulfilled (Runner.Handoff "User Age Assistant") ->
  backend (Samples.ask userAgeAgent h1)
  = Fulfilled (Runner.ToolCalls
                 [{| Runner.call_id := id;
                     Runner.call_name := "fetch_user_age";
                     Runner.call_args := [] |}]) ->
  backend (Samples.ask userAgeAgent h2) = Fulfilled (Runner.Message answer) ->
  (forall a, fetchUserAge.execute a (Some (mkRunContext userInfo))
             = "User John is 47 years old")
  /\ JS.includes "47" "User John is 47 years old" = true
  /\ Runner.run agents backend (mkRunContext userInfo) decisions (3 + spare)
       triageAgent h0
     = {| Runner.status := Runner.Completed answer;
          Runner.accumulated := h2 ++ [AssistantMessage answer] |}.
Proof.
  intros h0 h1 h2 H0 H1 H2.
  split; [intros a; reflexivity |]. split; [reflexivity |].
  unfold Samples.ask in *.
  set (ctx := mkRunContext userInfo) in *.
  assert (T0 : Runner.turn agents backend ctx decisions
                 {| Runner.active := triageAgent; Runner.hist := h0 |}
               = inl {| Runner.active := userAgeAgent; Runner.hist := h1 |}).
  { unfold Runner.turn. rewrite H0. reflexivity. }
  assert (T1 : Runner.turn agents backend ctx decisions
                 {| Runner.active := userAgeAgent; Runner.hist := h1 |}
               = inl {| Runner.active := userAgeAgent; Runner.hist := h2 |}).
  { unfold Runner.turn. rewrite H1. reflexivity. }
  assert (T2 : Runner.turn agents backend ctx decisions
                 {| Runner.active := userAgeAgent; Runner.hist := h2 |}
               = inr {| Runner.status := Runner.Completed answer;
                        Runner.accumulated := h2 ++ [AssistantMessage answer] |}).
  { unfold Runner.turn. rewrite H2. reflexivity. }
  unfold Runner.run. change (3 + spare) with (S (S (S spare))).
  cbn [Runner.loop]. rewrite T0, T1, T2. reflexivity.
Qed.

Lemma fetch_user_age_in_history_witness :
  Runner.run agents Samples.ageBackend (mkRunContext userInfo)
    Samples.noDecisions 10 triageAgent [user "What is the age of the user?"]
  = {| Runner.status := Runner.Completed "User John is 47 years old";
       Runner.accumulated :=
         [user "What is the age of the user?";
          HandoffEvent "Triage Agent" "User Age Assistant";
          ToolCall "fetch_user_age" [] "call_1";
          ToolResult "call_1" (Output "User John is 47 years old");
          AssistantMessage "User John is 47 years old"] |}.
Proof.
  apply (proj2 (proj2 (fetch_user_age_in_history Samples.ageBackend
                         Samples.noDecisions 7 "call_1"
                         "User John is 47 years old"
                         eq_refl eq_refl eq_refl))).
Defined.

(** ** The chat loop *)

Section ChatLoop.
Import Process Observe.

Variable env : Env.

Lemma chatLoop_sentinel (fuel : nat) (h : History) (p : Proc) :
  chatLoop env (S fuel) h "/bye" p = (Normal h, p, []).
Proof. reflexivity. Qed.

Lemma chatLoop_rejected (fuel : nat) (h : History) (up e : string) (p : Proc) :
  up <> "/bye" ->
  run env (runs p) h = RejectedWith e ->
  chatLoop env (S fuel) h up p
  = (Throw e, count_run p, [EvRun h (RejectedWith e)]).
Proof.
  intros Hup Hrun. cbn [chatLoop].
  apply String.eqb_neq in Hup. rewrite Hup.
  unfold bind, run_triage. rewrite Hrun. reflexivity.
Qed.

(** An iteration after a truthy final output: run, ask, append. *)
Lemma chatLoop_truthy (fuel : nat) (h : History) (up out : string)
  (r : RunResult) (p : Proc) :
  up <> "/bye" ->
  run env (runs p) h = Fulfilled r ->
  finalOutput r = Some out ->
  out <> "" ->
  rlClosed p = false ->
  let answer := question env (questions p) (prompt_of out) in
  let next := chatLoop env fuel (history r ++ [user answer]) answer
                (count_question (count_run p)) in
  chatLoop env (S fuel) h up p
  = (completion next, final next,
     EvRun h (Fulfilled r) :: EvQuestion (prompt_of out) answer :: trace next).
Proof.
  intros Hup Hrun Hout Hne Hopen answer next. cbn [chatLoop].
  apply String.eqb_neq in Hup. rewrite Hup.
  apply truthy_true_iff_nonempty in Hne.
  unfold bind at 1. unfold run_triage at 1. rewrite Hrun, Hout, Hne.
  unfold bind, rl_question. fold (prompt_of out). simpl. rewrite Hopen.
  unfold next, answer.
  destruct (chatLoop env fuel _ _ _) as [[c p'] t]. destruct c; reflexivity.
Qed.

(** An iteration after a truthy final output when the line reader has
    closed: run, then the question is rejected. *)
Lemma chatLoop_closed (fuel : nat) (h : History) (up out : string)
  (r : RunResult) (p : Proc) :
  up <> "/bye" ->
  run env (runs p) h = Fulfilled r ->
  finalOutput r = Some out ->
  out <> "" ->
  rlClosed p = true ->
  chatLoop env (S fuel) h up p
  = (Throw "ERR_USE_AFTER_CLOSE", count_run p, [EvRun h (Fulfilled r)]).
Proof.
  intros Hup Hrun Hout Hne Hclosed. cbn [chatLoop].
  apply String.eqb_neq in Hup. rewrite Hup.
  apply truthy_true_iff_nonempty in Hne.
  unfold bind at 1. unfold run_triage at 1. rewrite Hrun, Hout, Hne.
  unfold bind, rl_question. simpl. rewrite Hclosed. reflexivity.
Qed.

(** An iteration after a null or empty final output: run, and again. *)
Lemma chatLoop_falsy (fuel : nat) (h : History) (up : string)
  (r : RunResult) (p : Proc) :
  up <> "/bye" ->
  run env (runs p) h = Fulfilled r ->
  JS.truthy_opt (finalOutput r) = false ->
  let next := chatLoop env fuel (history r) up (count_run p) in
  chatLoop env (S fuel) h up p
  = (completion next, final next, EvRun h (Fulfilled r) :: trace next).
Proof.
  intros Hup Hrun Hout next. cbn [chatLoop].
  apply String.eqb_neq in Hup. rewrite Hup.
  unfold bind at 1. unfold run_triage at 1. rewrite Hrun.
  unfold next.
  destruct (finalOutput r) as [out |]; simpl in Hout; [rewrite Hout |];
    destruct (chatLoop env fuel _ _ _) as [[c p'] t]; destruct c; reflexivity.
Qed.

(** The five ways an iteration can go. *)
Lemma chatLoop_cases (fuel : nat) (h : History) (up : string) (p : Proc) :
  (up = "/bye" /\ chatLoop env (S fuel) h up p = (Normal h, p, []))
  \/ (exists e,
         run env (runs p) h = RejectedWith e
         /\ chatLoop env (S fuel) h up p
            = (Throw e, count_run p, [EvRun h (RejectedWith e)]))
  \/ (exists r out,
         up <> "/bye" /\ run env (runs p) h = Fulfilled r
         /\ finalOutput r = Some out /\ out <> "" /\ rlClosed p = false
         /\ let answer := question env (questions p) (prompt_of out) in
            let next := chatLoop env fuel (history r ++ [user answer]) answer
                          (count_question (count_run p)) in
            chatLoop env (S fuel) h up p
            = (completion next, final next,
               EvRun h (Fulfilled r) :: EvQuestion (prompt_of out) answer
                 :: trace next))
  \/ (exists r,
         up <> "/bye" /\ run env (runs p) h = Fulfilled r
         /\ JS.truthy_opt (finalOutput r) = false
         /\ let next := chatLoop env fuel (history r) up (count_run p) in
            chatLoop env (S fuel) h up p
            = (completion next, final next,
               EvRun h (Fulfilled r) :: trace next))
  \/ (exists r out,
         up <> "/bye" /\ run env (runs p) h = Fulfilled r
         /\ finalOutput r = Some out /\ out <> "" /\ rlClosed p = true
         /\ chatLoop env (S fuel) h up p
            = (Throw "ERR_USE_AFTER_CLOSE", count_run p,
               [EvRun h (Fulfilled r)])).
Proof.
  destruct (String.eqb_spec up "/bye") as [-> | Hup].
  { left. split; reflexivity. }
  right. destruct (run env (runs p) h) as [r | e] eqn:Hrun.
  - right. destruct (JS.truthy_opt (finalOutput r)) eqn:Ht.
    + destruct (finalOutput r) as [out |] eqn:Hout; [| discriminate].
      simpl in Ht. apply truthy_true_iff_nonempty in Ht.
      destruct (rlClosed p) eqn:Hrl.
      * right. right. exists r, out.
        repeat split; auto. apply (chatLoop_closed fuel h up out r p); auto.
      * left. exists r, out.
        repeat split; auto. apply chatLoop_truthy; auto.
    + right. left. exists r. repeat split; auto. apply chatLoop_falsy; auto.
  - left. exists e. split; [reflexivity |]. apply chatLoop_rejected; auto.
Qed.

End ChatLoop.

Section ChatInvariants.
Import Process Observe.

Variable env : Env.

(** The loop emits runs and questions only. *)
Lemma chatLoop_events (fuel : nat) :
  forall h up p, forallb chat_event (trace (chatLoop env fuel h up p)) = true.
Proof.
  induction fuel as [| fuel IH]; intros h up p; [reflexivity |].
  destruct (chatLoop_cases env fuel h up p)
    as [[_ E] | [(e & _ & E) | [(r & out & _ & _ & _ & _ & _ & E)
       | [(r & _ & _ & _ & E) | (r & out & _ & _ & _ & _ & _ & E)]]]];
    rewrite E; simpl; auto.
Qed.

(** The loop never ends the process and never returns unless the
    sentinel was read. *)
Lemma chatLoop_no_exit (fuel : nat) :
  forall h up p code, completion (chatLoop env fuel h up p) <> Exit code.
Proof.
  induction fuel as [| fuel IH]; intros h up p code; [discriminate |].
  destruct (chatLoop_cases env fuel h up p)
    as [[_ E] | [(e & _ & E) | [(r & out & _ & _ & _ & _ & _ & E)
       | [(r & _ & _ & _ & E) | (r & out & _ & _ & _ & _ & _ & E)]]]];
    rewrite E; simpl; try discriminate; apply IH.
Qed.

(** Questions come directly after a run with a truthy final output. *)
Lemma chatLoop_guarded (fuel : nat) :
  forall h up p prev,
    prompts_guarded prev (trace (chatLoop env fuel h up p)) = true.
Proof.
  induction fuel as [| fuel IH]; intros h up p prev; [reflexivity |].
  destruct (chatLoop_cases env fuel h up p)
    as [[_ E] | [(e & _ & E) | [(r & out & _ & _ & Ho & Hne & _ & E)
       | [(r & _ & _ & _ & E) | (r & out & _ & _ & _ & _ & _ & E)]]]];
    rewrite E; simpl; auto.
  rewrite Ho. simpl. apply truthy_true_iff_nonempty in Hne. rewrite Hne.
  simpl. apply IH.
Qed.

(** More fuel does not change a loop that is over. *)
Lemma chatLoop_fuel (fuel : nat) :
  forall h up p extra,
    completion (chatLoop env fuel h up p) <> Pending ->
    chatLoop env (fuel + extra) h up p = chatLoop env fuel h up p.
Proof.
  induction fuel as [| fuel IH]; intros h up p extra Hc.
  { exfalso. apply Hc. reflexivity. }
  change (S fuel + extra) with (S (fuel + extra)).
  destruct (String.eqb_spec up "/bye") as [-> | Hup]; [reflexivity |].
  destruct (run env (runs p) h) as [r | e] eqn:Hrun.
  - destruct (JS.truthy_opt (finalOutput r)) eqn:Ht.
    + destruct (finalOutput r) as [out |] eqn:Hout; [| discriminate].
      simpl in Ht. apply truthy_true_iff_nonempty in Ht.
      destruct (rlClosed p) eqn:Hrl.
      { rewrite !(chatLoop_closed env _ h up out r p Hup Hrun Hout Ht Hrl).
        reflexivity. }
      pose proof (chatLoop_truthy env fuel h up out r p Hup Hrun Hout Ht Hrl)
        as E1.
      pose proof (chatLoop_truthy env (fuel + extra) h up out r p
                    Hup Hrun Hout Ht Hrl) as E2.
      cbv zeta in E1, E2. rewrite E1 in Hc. rewrite E1, E2.
      unfold completion at 1 in Hc. cbn [fst] in Hc.
      rewrite IH; auto.
    + pose proof (chatLoop_falsy env fuel h up r p Hup Hrun Ht) as E1.
      pose proof (chatLoop_falsy env (fuel + extra) h up r p Hup Hrun Ht) as E2.
      cbv zeta in E1, E2. rewrite E1 in Hc. rewrite E1, E2.
      unfold completion at 1 in Hc. cbn [fst] in Hc.
      rewrite IH; auto.
  - rewrite !(chatLoop_rejected env _ _ _ _ _ Hup Hrun). reflexivity.
Qed.

(** On a closed line reader the loop cannot read the sentinel, so it
    never ends normally. *)
Lemma chatLoop_closed_never_ends (fuel : nat) :
  forall h up p hf,
    rlClosed p = true ->
    up <> "/bye" ->
    completion (chatLoop env fuel h up p) <> Normal hf.
Proof.
  induction fuel as [| fuel IH]; intros h up p hf Hrl Hup; [discriminate |].
  destruct (chatLoop_cases env fuel h up p)
    as [[Hbye E] | [(e & _ & E) | [(r & out & _ & _ & _ & _ & Hopen & E)
       | [(r & _ & _ & _ & E) | (r & out & _ & _ & _ & _ & _ & E)]]]];
    rewrite E; simpl; try discriminate; try congruence.
  apply IH; auto.
Qed.

(** [runChat], by the way its loop ends. *)
Lemma runChat_result (fuel : nat) (actionPrompt : string) (p : Proc) :
  runChat env fuel actionPrompt p
  = match chatLoop env fuel [user actionPrompt] "" p with
    | (Normal h, p', t) => (Exit 0%Z, close_rl p', t ++ farewell env h)
    | (Throw e, p', t) => (Throw e, p', t)
    | (Exit code, p', t) => (Exit code, p', t)
    | (Pending, p', t) => (Pending, p', t)
    end.
Proof.
  unfold runChat. unfold bind at 1.
  destruct (chatLoop env fuel [user actionPrompt] "" p) as [[c p'] t].
  destruct c; reflexivity.
Qed.

Lemma runChat_never_returns (fuel : nat) (actionPrompt : string) (p : Proc) :
  forall u, completion (runChat env fuel actionPrompt p) <> Normal u.
Proof.
  intros u. rewrite runChat_result.
  destruct (chatLoop env fuel [user actionPrompt] "" p) as [[c p'] t].
  destruct c; discriminate.
Qed.

End ChatInvariants.

(** ** The program, path by path *)

Section Paths.
Import Process Observe.

Variable env : Env.
Variable fuel : nat.

Lemma bind_eq {A B} (c : Prog A) (k : A -> Prog B) (p : Proc) :
  bind c k p
  = match c p with
    | (Normal a, p1, t1) =>
        match k a p1 with
        | (r, p2, t2) => (r, p2, t1 ++ t2)
        end
    | (Throw e, p1, t1) => (Throw e, p1, t1)
    | (Exit code, p1, t1) => (Exit code, p1, t1)
    | (Pending, p1, t1) => (Pending, p1, t1)
    end.
Proof. reflexivity. Qed.

Lemma connect_fulfilled (s : Server) (p : Proc) :
  handshake env s = None ->
  connect env s p
  = (Normal tt, set_client s connected p, [EvConnect s (Fulfilled tt)]).
Proof. intros H. unfold connect. rewrite H. reflexivity. Qed.

Lemma connect_rejected (s : Server) (e : string) (p : Proc) :
  handshake env s = Some e ->
  connect env s p
  = (Throw e, set_client s CapabilityServer.fresh p,
     [EvConnect s (RejectedWith e)]).
Proof. intros H. unfold connect. rewrite H. reflexivity. Qed.

Lemma cleanup_eq (p : Proc) :
  (close mcpHttpServer ;; close mcpFilesystemServer) p
  = (Normal tt,
     set_client mcpFilesystemServer closed (set_client mcpHttpServer closed p),
     teardown).
Proof. reflexivity. Qed.

(** The [try] block, path by path. *)
Lemma main_try_http_rejected (e : string) (p : Proc) :
  handshake env mcpHttpServer = Some e ->
  main_try env fuel p
  = (Throw e, set_client mcpHttpServer CapabilityServer.fresh p,
     [EvConnect mcpHttpServer (RejectedWith e)]).
Proof.
  intros H. unfold main_try.
  rewrite bind_eq, (connect_rejected _ _ _ H). reflexivity.
Qed.

Lemma main_try_fs_rejected (e : string) (p : Proc) :
  handshake env mcpHttpServer = None ->
  handshake env mcpFilesystemServer = Some e ->
  main_try env fuel p
  = (Throw e,
     set_client mcpFilesystemServer CapabilityServer.fresh
       (set_client mcpHttpServer connected p),
     [EvConnect mcpHttpServer (Fulfilled tt);
      EvConnect mcpFilesystemServer (RejectedWith e)]).
Proof.
  intros H1 H2. unfold main_try.
  rewrite bind_eq, (connect_fulfilled _ _ H1). cbv beta iota.
  rewrite bind_eq, (connect_rejected _ _ _ H2). reflexivity.
Qed.

Lemma rl_question_open (query : string) (p : Proc) :
  rlClosed p = false ->
  rl_question env query p
  = (Normal (question env (questions p) query), count_question p,
     [EvQuestion query (question env (questions p) query)]).
Proof. intros H. unfold rl_question. rewrite H. reflexivity. Qed.

Lemma main_try_tty :
  handshake env mcpHttpServer = None ->
  handshake env mcpFilesystemServer = None ->
  isTTY env = true ->
  let first := question env 0 first_prompt in
  let asked := startup ++ [EvQuestion first_prompt first] in
  main_try env fuel boot
  = if JS.truthy first then
      match runChat env fuel first at_chat with
      | (r, p, t) => (r, p, asked ++ t)
      end
    else (Throw "No input prompt provided", at_chat, asked).
Proof.
  intros H1 H2 Htty first asked. unfold main_try.
  rewrite bind_eq, (connect_fulfilled _ _ H1). cbv beta iota.
  rewrite bind_eq, (connect_fulfilled _ _ H2). cbv beta iota.
  rewrite bind_eq.
  change (register_end_handler
            (set_client mcpFilesystemServer connected
               (set_client mcpHttpServer connected boot)))
    with (@Normal unit tt,
          {| runs := 0; questions := 0; http := connected; fs := connected;
             endHandler := true; rlClosed := false |},
          @nil Event).
  cbv beta iota. rewrite Htty. rewrite bind_eq.
  rewrite rl_question_open by reflexivity.
  change (question env
            (questions
               {| runs := 0; questions := 0; http := connected;
                  fs := connected; endHandler := true; rlClosed := false |})
            ("What can I do for you?" ++ JS.nl ++ JS.nl)%string) with first.
  change (count_question
            {| runs := 0; questions := 0; http := connected;
               fs := connected; endHandler := true; rlClosed := false |})
    with at_chat.
  cbv beta iota.
  destruct (JS.truthy first); cbn [negb].
  - destruct (runChat env fuel first at_chat) as [[r p] t]. reflexivity.
  - reflexivity.
Qed.

Lemma main_try_piped :
  handshake env mcpHttpServer = None ->
  handshake env mcpFilesystemServer = None ->
  isTTY env = false ->
  main_try env fuel boot
  = (Normal tt,
     {| runs := 0; questions := 0; http := connected; fs := connected;
        endHandler := true; rlClosed := false |},
     startup).
Proof.
  intros H1 H2 Htty. unfold main_try.
  rewrite bind_eq, (connect_fulfilled _ _ H1). cbv beta iota.
  rewrite bind_eq, (connect_fulfilled _ _ H2). cbv beta iota.
  rewrite bind_eq. unfold register_end_handler at 1. cbv beta iota.
  rewrite Htty. reflexivity.
Qed.

Lemma stdin_end_tty (p : Proc) :
  isTTY env = true -> stdin_end env fuel p = (Normal tt, p, []).
Proof.
  intros H. unfold stdin_end. rewrite H, Bool.andb_false_r. reflexivity.
Qed.

(** The first [connect()] is rejected. *)
Lemma execute_http_rejected (e : string) :
  handshake env mcpHttpServer = Some e ->
  observed (execute env fuel)
  = (Normal tt,
     EvConnect mcpHttpServer (RejectedWith e) :: teardown ++ [EvConsoleError e]).
Proof.
  intros H. unfold observed, execute, program.
  rewrite bind_eq. unfold catch, main, try_finally.
  rewrite (main_try_http_rejected _ _ H), cleanup_eq. reflexivity.
Qed.

(** The second [connect()] is rejected. *)
Lemma execute_fs_rejected (e : string) :
  handshake env mcpHttpServer = None ->
  handshake env mcpFilesystemServer = Some e ->
  observed (execute env fuel)
  = (Normal tt,
     EvConnect mcpHttpServer (Fulfilled tt)
       :: EvConnect mcpFilesystemServer (RejectedWith e)
       :: teardown ++ [EvConsoleError e]).
Proof.
  intros H1 H2. unfold observed, execute, program.
  rewrite bind_eq. unfold catch, main, try_finally.
  rewrite (main_try_fs_rejected _ _ H1 H2), cleanup_eq. reflexivity.
Qed.

(** On a terminal, with both servers connected. *)
Lemma execute_tty :
  handshake env mcpHttpServer = None ->
  handshake env mcpFilesystemServer = None ->
  isTTY env = true ->
  let first := question env 0 first_prompt in
  let asked := startup ++ [EvQuestion first_prompt first] in
  observed (execute env fuel)
  = if JS.truthy first then
      match chatLoop env fuel [user first] "" at_chat with
      | (Normal h, _, t) => (Exit 0%Z, asked ++ t ++ farewell env h)
      | (Throw e, _, t) =>
          (Normal tt, asked ++ t ++ teardown ++ [EvConsoleError e])
      | (Exit code, _, t) => (Exit code, asked ++ t)
      | (Pending, _, t) => (Pending, asked ++ t)
      end
    else
      (Normal tt,
       asked ++ teardown ++ [EvConsoleError "No input prompt provided"]).
Proof.
  intros H1 H2 Htty first asked. unfold observed, execute, program.
  rewrite bind_eq. unfold catch, main, try_finally.
  rewrite (main_try_tty H1 H2 Htty). fold first. fold asked.
  destruct (JS.truthy first).
  - rewrite runChat_result.
    destruct (chatLoop env fuel [user first] "" at_chat) as [[c p'] t].
    destruct c; try reflexivity.
    rewrite cleanup_eq. unfold console_error. cbv beta iota.
    rewrite (stdin_end_tty _ Htty). unfold observed, asked. simpl.
    rewrite app_nil_r, <- !app_assoc. reflexivity.
  - rewrite cleanup_eq. unfold console_error. cbv beta iota.
    rewrite (stdin_end_tty _ Htty). unfold observed, asked. simpl.
    reflexivity.
Qed.

(** On piped input, with both servers connected, when the input ended
    before the listener was registered: [main] returns at once and tears
    down, and nothing else happens. *)
Lemma execute_piped_early :
  handshake env mcpHttpServer = None ->
  handshake env mcpFilesystemServer = None ->
  isTTY env = false ->
  lateEnd env = false ->
  observed (execute env fuel) = (Normal tt, startup ++ teardown).
Proof.
  intros H1 H2 Htty Hlate. unfold observed, execute, program.
  rewrite bind_eq. unfold catch, main, try_finally.
  rewrite (main_try_piped H1 H2 Htty), cleanup_eq.
  unfold stdin_end. rewrite Hlate, Bool.andb_false_r. reflexivity.
Qed.

(** On piped input, with both servers connected, when the input ends
    after the listener was registered: [main] returns at once and tears
    down; the chat runs from the ["end"] listener, on a closed line
    reader. *)
Lemma execute_piped :
  handshake env mcpHttpServer = None ->
  handshake env mcpFilesystemServer = None ->
  isTTY env = false ->
  lateEnd env = true ->
  observed (execute env fuel)
  = match chatLoop env fuel [user (stdinInput env)] "" at_piped_chat with
    | (Normal h, _, t) => (Exit 0%Z, startup ++ teardown ++ t ++ farewell env h)
    | (Throw e, _, t) => (Throw e, startup ++ teardown ++ t)
    | (Exit code, _, t) => (Exit code, startup ++ teardown ++ t)
    | (Pending, _, t) => (Pending, startup ++ teardown ++ t)
    end.
Proof.
  intros H1 H2 Htty Hlate. unfold observed, execute, program.
  rewrite bind_eq. unfold catch, main, try_finally.
  rewrite (main_try_piped H1 H2 Htty), cleanup_eq.
  unfold stdin_end. simpl endHandler. rewrite Htty, Hlate.
  change (close_rl
            (set_client mcpFilesystemServer closed
               (set_client mcpHttpServer closed
                  {| runs := 0; questions := 0; http := connected;
                     fs := connected; endHandler := true;
                     rlClosed := false |})))
    with at_piped_chat.
  cbn [andb negb]. rewrite runChat_result.
  destruct (chatLoop env fuel [user (stdinInput env)] "" at_piped_chat)
    as [[c p'] t].
  destruct c; reflexivity.
Qed.

End Paths.

(** ** Counting and classifying events *)

Section Counting.
Import Process Observe.

Lemma observed_eq {A} (x : Completion A * Proc * list Event)
  (c : Completion A) (t : list Event) :
  observed x = (c, t) -> completion x = c /\ trace x = t.
Proof. unfold observed. intros H. injection H as H1 H2. auto. Qed.

Lemma closes_app (s : Server) (t1 t2 : list Event) :
  closes s (t1 ++ t2) = closes s t1 + closes s t2.
Proof. unfold closes. rewrite filter_app. apply length_app. Qed.

Lemma ran_app (t1 t2 : list Event) : ran (t1 ++ t2) = ran t1 || ran t2.
Proof. apply existsb_app. Qed.

Lemma asked_app (t1 t2 : list Event) : asked (t1 ++ t2) = asked t1 || asked t2.
Proof. apply existsb_app. Qed.


Lemma chat_events_close_nothing (s : Server) (t : list Event) :
  forallb chat_event t = true -> closes s t = 0.
Proof.
  induction t as [| e t IH]; [reflexivity |].
  simpl. intros H. apply andb_prop in H. destruct H as [He Ht].
  unfold closes in *. simpl.
  destruct e; simpl in He; try discriminate; simpl; auto.
Qed.


Lemma teardown_closes_once (s : Server) : closes s teardown = 1.
Proof. destruct s; reflexivity. Qed.

Lemma chatLoop_first_event (env : Env) (fuel : nat) (h : History)
  (up : string) (p : Proc) :
  up <> "/bye" ->
  exists rest,
    trace (chatLoop env (S fuel) h up p) = EvRun h (run env (runs p) h) :: rest.
Proof.
  intros Hup. destruct (run env (runs p) h) as [r | e] eqn:Hrun.
  - destruct (JS.truthy_opt (finalOutput r)) eqn:Ht.
    + destruct (finalOutput r) as [out |] eqn:Hout; [| discriminate].
      simpl in Ht. apply truthy_true_iff_nonempty in Ht.
      destruct (rlClosed p) eqn:Hrl.
      * rewrite (chatLoop_closed env _ _ _ _ _ _ Hup Hrun Hout Ht Hrl).
        eexists. reflexivity.
      * rewrite (chatLoop_truthy env _ _ _ _ _ _ Hup Hrun Hout Ht Hrl).
        eexists. reflexivity.
    + rewrite (chatLoop_falsy env _ _ _ _ _ Hup Hrun Ht).
      eexists. reflexivity.
  - rewrite (chatLoop_rejected env _ _ _ _ _ Hup Hrun).
    eexists. reflexivity.
Qed.

End Counting.

(** ** The chat loop and the user *)

Section Prompting.
Import Process Observe.

(** C10.  After a run whose final output is null or empty the loop asks
    nothing: it takes the run's history as it is, keeps [userPrompt],
    which is not the sentinel, and calls [run] again on that history.
    In every trace of the loop a question comes directly after a run
    that returned a non-empty final output. *)
Theorem no_prompt_without_output
  (env : Env) (fuel : nat) (h : History) (up : string) (r : RunResult)
  (p : Proc) :
  up <> "/bye" ->
  run env (runs p) h = Fulfilled r ->
  JS.truthy_opt (finalOutput r) = false ->
  (let next := chatLoop env fuel (history r) up (count_run p) in
   chatLoop env (S fuel) h up p
   = (completion next, final next, EvRun h (Fulfilled r) :: trace next))
  /\ (exists rest,
         trace (chatLoop env (S (S fuel)) h up p)
         = EvRun h (Fulfilled r)
             :: EvRun (history r) (run env (S (runs p)) (history r)) :: rest)
  /\ (forall fuel' h' up' p' prev,
         prompts_guarded prev (trace (chatLoop env fuel' h' up' p')) = true).
Proof.
  intros Hup Hrun Hf. split; [| split].
  - apply chatLoop_falsy; assumption.
  - pose proof (chatLoop_falsy env (S fuel) h up r p Hup Hrun Hf) as E1.
    cbv zeta in E1. rewrite E1.
    destruct (chatLoop_first_event env fuel (history r) up (count_run p) Hup)
      as [rest E].
    exists rest. rewrite E. reflexivity.
  - intros fuel' h' up' p' prev. apply chatLoop_guarded.
Qed.

Lemma no_prompt_without_output_witness :
  exists rest,
    trace (chatLoop Samples.null_output 2 [user "hi"] "" at_chat)
    = EvRun [user "hi"]
        (Fulfilled {| finalOutput := None; history := [user "hi"] |})
        :: EvRun [user "hi"] (run Samples.null_output 1 [user "hi"]) :: rest.
Proof.
  apply (proj1 (proj2 (no_prompt_without_output Samples.null_output 1
                         [user "hi"] ""
                         {| finalOutput := None; history := [user "hi"] |}
                         at_chat ltac:(discriminate) eq_refl eq_refl))).
Defined.

(** C8, as stated, fails: a final output that is not null but empty is
    not followed by a question; the loop calls [run] again. *)
Lemma empty_final_output_is_not_prompted :
  ~ (forall (env : Env) (fuel : nat) (h : History) (up : string)
            (r : RunResult) (p : Proc),
        up <> "/bye" ->
        run env (runs p) h = Fulfilled r ->
        finalOutput r <> None ->
        exists query answer rest,
          trace (chatLoop env (S (S fuel)) h up p)
          = EvRun h (Fulfilled r) :: EvQuestion query answer :: rest).
Proof.
  intros H.
  destruct (H Samples.empty_output 0 [user "hi"] ""
              {| finalOutput := Some "";
                 history := [user "hi"; AssistantMessage ""] |}
              at_chat ltac:(discriminate) eq_refl ltac:(discriminate))
    as (query & answer & rest & E).
  vm_compute in E. discriminate.
Qed.

(** C8, amended.  While the line reader is open, as it is on a
    terminal, after a run result with a non-empty final output the loop
    asks for the next line, showing the output, and appends the line to
    the run's history as a user message.  When the line is the sentinel
    the loop ends with that history, sentinel included; and when the loop
    has ended, [runChat] writes the serialised history to standard
    output, closes the line reader and exits with code 0.  On a line
    reader that has closed, as in the ["end"] listener of piped input,
    the question is rejected instead: nothing is asked or appended and
    the loop throws. *)
Theorem prompt_after_nonempty_output
  (env : Env) (fuel : nat) (h : History) (up out : string) (r : RunResult)
  (p : Proc) :
  up <> "/bye" ->
  run env (runs p) h = Fulfilled r ->
  finalOutput r = Some out ->
  out <> "" ->
  let answer := question env (questions p) (prompt_of out) in
  let asked := [EvRun h (Fulfilled r); EvQuestion (prompt_of out) answer] in
  (rlClosed p = false ->
   let next := chatLoop env fuel (history r ++ [user answer]) answer
                 (count_question (count_run p)) in
   chatLoop env (S fuel) h up p
   = (completion next, final next, asked ++ trace next))
  /\ (rlClosed p = false ->
      answer = "/bye" ->
      chatLoop env (S (S fuel)) h up p
      = (Normal (history r ++ [user "/bye"]), count_question (count_run p),
         asked))
  /\ (rlClosed p = true ->
      chatLoop env (S fuel) h up p
      = (Throw "ERR_USE_AFTER_CLOSE", count_run p, [EvRun h (Fulfilled r)]))
  /\ (forall fuel' actionPrompt p0 transcript p1 t,
         chatLoop env fuel' [user actionPrompt] "" p0 = (Normal transcript, p1, t) ->
         runChat env fuel' actionPrompt p0
         = (Exit 0%Z, close_rl p1,
            t ++ [EvStdoutWrite (JSON_stringify env transcript);
                  EvRlClose; EvExit 0])).
Proof.
  intros Hup Hrun Hout Hne answer asked. split; [| split; [| split]].
  - intros Hopen.
    apply (chatLoop_truthy env fuel h up out r p Hup Hrun Hout Hne Hopen).
  - intros Hopen Hbye. unfold asked.
    rewrite (chatLoop_truthy env (S fuel) h up out r p Hup Hrun Hout Hne Hopen).
    fold answer. rewrite Hbye. rewrite chatLoop_sentinel. reflexivity.
  - intros Hclosed.
    apply (chatLoop_closed env fuel h up out r p Hup Hrun Hout Hne Hclosed).
  - intros fuel' actionPrompt p0 transcript p1 t E.
    rewrite runChat_result, E. reflexivity.
Qed.

Lemma prompt_after_nonempty_output_witness :
  chatLoop Samples.session 2 [user "hi"] "" at_chat
  = (Normal [user "hi"; AssistantMessage "Hello"; user "/bye"],
     count_question (count_run at_chat),
     [EvRun [user "hi"]
        (Fulfilled {| finalOutput := Some "Hello";
                      history := [user "hi"; AssistantMessage "Hello"] |});
      EvQuestion (prompt_of "Hello") "/bye"])
  /\ chatLoop Samples.piped 2 [user "hi"] "" at_piped_chat
     = (Throw "ERR_USE_AFTER_CLOSE", count_run at_piped_chat,
        [EvRun [user "hi"]
           (Fulfilled {| finalOutput := Some "Hello";
                         history := [user "hi"; AssistantMessage "Hello"] |})]).
Proof.
  split.
  - apply (proj1 (proj2 (prompt_after_nonempty_output Samples.session 0
                           [user "hi"] "" "Hello"
                           {| finalOutput := Some "Hello";
                              history := [user "hi"; AssistantMessage "Hello"] |}
                           at_chat ltac:(discriminate) eq_refl eq_refl
                           ltac:(discriminate))));
      reflexivity.
  - apply (proj1 (proj2 (proj2 (prompt_after_nonempty_output Samples.piped 1
                                  [user "hi"] "" "Hello"
                                  {| finalOutput := Some "Hello";
                                     history := [user "hi"; AssistantMessage "Hello"] |}
                                  at_piped_chat ltac:(discriminate) eq_refl
                                  eq_refl ltac:(discriminate)))));
      reflexivity.
Defined.

End Prompting.

(** ** Teardown, failures and exit codes *)

Section Teardown.
Import Process Observe.

(** C3.  On the graceful path the claim fails.  In the terminal session
    [Samples.session] the user answers the first output with the
    sentinel: [runChat] calls [process.exit(0)] inside the [try] block of
    [main], the process ends there, and the [finally] block is never
    reached: no [close()] is called on either capability server. *)
Theorem graceful_end_skips_close :
  observed (execute Samples.session 2)
  = (Exit 0%Z,
     startup
       ++ [EvQuestion first_prompt "hi";
           EvRun [user "hi"]
             (Fulfilled {| finalOutput := Some "Hello";
                           history := [user "hi"; AssistantMessage "Hello"] |});
           EvQuestion (prompt_of "Hello") "/bye"]
       ++ farewell Samples.session
            [user "hi"; AssistantMessage "Hello"; user "/bye"])
  /\ closes mcpHttpServer (trace (execute Samples.session 2)) = 0
  /\ closes mcpFilesystemServer (trace (execute Samples.session 2)) = 0.
Proof. repeat split. Qed.

(** The same on every terminal session that ends by [process.exit]. *)
Lemma tty_exit_skips_close (env : Env) (fuel : nat) (code : Z) (s : Server) :
  isTTY env = true ->
  completion (execute env fuel) = Exit code ->
  closes s (trace (execute env fuel)) = 0.
Proof.
  intros Htty Hexit.
  destruct (handshake env mcpHttpServer) as [e |] eqn:H1.
  { apply (execute_http_rejected env fuel) in H1.
    apply observed_eq in H1. destruct H1 as [Hc _]. congruence. }
  destruct (handshake env mcpFilesystemServer) as [e |] eqn:H2.
  { apply (execute_fs_rejected env fuel _ H1) in H2.
    apply observed_eq in H2. destruct H2 as [Hc _]. congruence. }
  pose proof (execute_tty env fuel H1 H2 Htty) as E. cbv zeta in E.
  destruct (JS.truthy (question env 0 first_prompt)).
  - pose proof (chatLoop_events env fuel
                  [user (question env 0 first_prompt)] "" at_chat) as Hev.
    pose proof (chatLoop_no_exit env fuel
                  [user (question env 0 first_prompt)] "" at_chat) as Hno.
    destruct (chatLoop env fuel [user (question env 0 first_prompt)] "" at_chat)
      as [[c p'] t].
    destruct c as [h | e | code' |];
      apply observed_eq in E; destruct E as [Hc Ht]; try congruence.
    + rewrite Ht, !closes_app. cbn [trace snd] in Hev.
      rewrite (chat_events_close_nothing s t Hev). destruct s; reflexivity.
    + exfalso. apply (Hno code'). reflexivity.
  - apply observed_eq in E. destruct E as [Hc _]. congruence.
Qed.

(** The sibling path: when the run loop throws on a terminal, the
    [finally] block calls [close()] once on each server. *)
Lemma run_rejection_closes_once
  (env : Env) (fuel : nat) (e : string) (p' : Proc) (t : list Event)
  (s : Server) :
  handshake env mcpHttpServer = None ->
  handshake env mcpFilesystemServer = None ->
  isTTY env = true ->
  question env 0 first_prompt <> "" ->
  chatLoop env fuel [user (question env 0 first_prompt)] "" at_chat
  = (Throw e, p', t) ->
  completion (execute env fuel) = Normal tt
  /\ closes s (trace (execute env fuel)) = 1.
Proof.
  intros H1 H2 Htty Hfirst Hloop.
  pose proof (execute_tty env fuel H1 H2 Htty) as E. cbv zeta in E.
  pose proof (chatLoop_events env fuel
                [user (question env 0 first_prompt)] "" at_chat) as Hev.
  apply truthy_true_iff_nonempty in Hfirst.
  rewrite Hfirst, Hloop in E. rewrite Hloop in Hev. cbn [trace snd] in Hev.
  apply observed_eq in E. destruct E as [Hc Ht]. split; [exact Hc |].
  rewrite Ht, !closes_app, (chat_events_close_nothing s t Hev).
  destruct s; reflexivity.
Qed.

Example run_rejected_session_closes_once :
  observed (execute Samples.run_rejected 5)
  = (Normal tt,
     startup
       ++ [EvQuestion first_prompt "hi";
           EvRun [user "hi"] (RejectedWith "MaxTurnsExceeded")]
       ++ teardown ++ [EvConsoleError "MaxTurnsExceeded"]).
Proof. reflexivity. Qed.

(** On piped input the teardown comes before the chat, and the chat
    throws at its first question, the line reader having closed. *)
Example piped_session_throws :
  observed (execute Samples.piped 5)
  = (Throw "ERR_USE_AFTER_CLOSE",
     startup ++ teardown
       ++ [EvRun [user "hi"]
             (Fulfilled {| finalOutput := Some "Hello";
                           history := [user "hi"; AssistantMessage "Hello"] |})]).
Proof. reflexivity. Qed.

(** On piped input that ended before the listener was registered, the
    chat never starts. *)
Example piped_session_misses_end :
  observed (execute (Samples.early_end Samples.piped) 5)
  = (Normal tt, startup ++ teardown).
Proof. reflexivity. Qed.

(** C4, as stated, fails: with the HTTP capability server refusing the
    connection, no run ever takes place, whatever the fuel. *)
Lemma connect_failure_ends_the_session :
  ~ (forall env : Env,
        (exists s e, handshake env s = Some e) ->
        exists fuel, ran (trace (execute env fuel)) = true).
Proof.
  intros H.
  destruct (H Samples.refused) as [fuel Hran].
  { exists mcpHttpServer, "ECONNREFUSED". reflexivity. }
  pose proof (execute_http_rejected Samples.refused fuel "ECONNREFUSED" eq_refl)
    as E.
  apply observed_eq in E. destruct E as [_ Ht].
  rewrite Ht in Hran. discriminate.
Qed.

(** C4, amended.  When connecting a capability server fails, the rest of
    the [try] block is skipped: no question is asked and no run takes
    place.  The [finally] block calls [close()] once on each server, the
    error of the failed [connect()] reaches [main().catch] and is printed
    with [console.error], and nothing else happens.  The failed
    [connect()] is the first one that fails: after a failure of the HTTP
    server the filesystem server is not tried. *)
Theorem connect_failure_skips_the_session
  (env : Env) (fuel : nat) (s : Server) (e : string) :
  handshake env s = Some e ->
  let printed :=
    match handshake env mcpHttpServer with
    | Some e1 => e1
    | None => e
    end in
  let attempts :=
    match handshake env mcpHttpServer with
    | Some e1 => [EvConnect mcpHttpServer (RejectedWith e1)]
    | None => [EvConnect mcpHttpServer (Fulfilled tt);
               EvConnect mcpFilesystemServer (RejectedWith e)]
    end in
  observed (execute env fuel)
  = (Normal tt, attempts ++ teardown ++ [EvConsoleError printed])
  /\ (exists failed, handshake env failed = Some printed)
  /\ ran (trace (execute env fuel)) = false
  /\ asked (trace (execute env fuel)) = false
  /\ closes mcpHttpServer (trace (execute env fuel)) = 1
  /\ closes mcpFilesystemServer (trace (execute env fuel)) = 1.
Proof.
  intros H printed attempts. unfold printed, attempts.
  destruct (handshake env mcpHttpServer) as [e1 |] eqn:H1.
  - pose proof (execute_http_rejected env fuel e1 H1) as E.
    split; [exact E |].
    split; [exists mcpHttpServer; exact H1 |].
    apply observed_eq in E. destruct E as [_ Ht]. rewrite Ht.
    repeat split.
  - assert (H2 : handshake env mcpFilesystemServer = Some e).
    { destruct s; [congruence | exact H]. }
    pose proof (execute_fs_rejected env fuel e H1 H2) as E.
    split; [exact E |].
    split; [exists mcpFilesystemServer; exact H2 |].
    apply observed_eq in E. destruct E as [_ Ht]. rewrite Ht.
    repeat split.
Qed.

Lemma connect_failure_skips_the_session_witness :
  observed (execute Samples.timed_out 5)
  = (Normal tt,
     [EvConnect mcpHttpServer (Fulfilled tt);
      EvConnect mcpFilesystemServer (RejectedWith "CapabilityServerTimeout")]
       ++ teardown ++ [EvConsoleError "CapabilityServerTimeout"])
  /\ observed (execute Samples.refused 5)
     = (Normal tt,
        [EvConnect mcpHttpServer (RejectedWith "ECONNREFUSED")]
          ++ teardown ++ [EvConsoleError "ECONNREFUSED"]).
Proof.
  split.
  - apply (proj1 (connect_failure_skips_the_session Samples.timed_out 5
                    mcpFilesystemServer "CapabilityServerTimeout" eq_refl)).
  - apply (proj1 (connect_failure_skips_the_session Samples.refused 5
                    mcpHttpServer "ECONNREFUSED" eq_refl)).
Defined.

End Teardown.

Section ExitCodes.
Import Process Observe.

Variable env : Env.
Variable fuel : nat.



End ExitCodes.

Section ExitClaims.
Import Process Observe.




End ExitClaims.

(** * Further properties of the source *)

(** ** Strings *)

Lemma length_append (a b : string) :
  String.length (a ++ b) = String.length a + String.length b.
Proof. induction a as [| c a IH]; simpl; [reflexivity | now rewrite IH]. Qed.

Lemma append_inj_l (p a b : string) : (p ++ a = p ++ b)%string -> a = b.
Proof.
  induction p as [| c p IH]; simpl; intros H; [exact H |].
  injection H as H. auto.
Qed.

Lemma append_inj_r (s : string) :
  forall a b : string, (a ++ s = b ++ s)%string -> a = b.
Proof.
  induction a as [| c a IH]; destruct b as [| d b]; simpl; intros H.
  - reflexivity.
  - apply (f_equal String.length) in H. simpl in H.
    rewrite length_append in H. lia.
  - apply (f_equal String.length) in H. simpl in H.
    rewrite length_append in H. lia.
  - injection H as -> H. f_equal. auto.
Qed.

Lemma length_zero_empty (s : string) : String.length s = 0 -> s = "".
Proof. destruct s; simpl; [reflexivity | discriminate]. Qed.

(** ** The instruction builder *)

(** X1.  The fallback text is returned for the empty name only, and the
    instructions are never the empty string. *)
Theorem buildInstructions_fallback_iff (runContext : RunContext UserContext) :
  (buildInstructions runContext = "You are a helpful assistant"
   <-> uc_name (context runContext) = "")
  /\ buildInstructions runContext <> "".
Proof.
  unfold buildInstructions.
  destruct (JS.truthy (uc_name (context runContext))) eqn:E.
  - apply truthy_true_iff_nonempty in E. split; [| discriminate].
    split; [discriminate | contradiction].
  - apply truthy_false_iff_empty in E. split; [| discriminate].
    split; auto.
Qed.

(** X2.  Different names give different instructions: the name can be
    read back from the text. *)
Theorem buildInstructions_injective (rc1 rc2 : RunContext UserContext) :
  buildInstructions rc1 = buildInstructions rc2 ->
  uc_name (context rc1) = uc_name (context rc2).
Proof.
  unfold buildInstructions.
  destruct (JS.truthy (uc_name (context rc1))) eqn:E1;
    destruct (JS.truthy (uc_name (context rc2))) eqn:E2; intros H.
  - apply append_inj_l in H. apply append_inj_r in H. exact H.
  - discriminate.
  - discriminate.
  - apply truthy_false_iff_empty in E1, E2. congruence.
Qed.

Lemma buildInstructions_injective_witness :
  uc_name (context (mkRunContext (asUserContext userInfo)))
  = uc_name (context (mkRunContext (mkUserContext "John"))).
Proof.
  apply (buildInstructions_injective
           (mkRunContext (asUserContext userInfo))
           (mkRunContext (mkUserContext "John"))).
  reflexivity.
Defined.

(** ** The local tools *)

(** X3.  The result of [fetch_user_age] depends on the name in the
    context and on nothing else: neither on the arguments nor on [uid].
    Equal results mean equal names.  Without a run context the result is
    the one for a user whose name is the word undefined. *)
Theorem fetchUserAge_depends_on_name_only
  (a b : Args) (c1 c2 : RunContext UserInfo) (anyUid : Z) :
  (fetchUserAge.execute a (Some c1) = fetchUserAge.execute b (Some c2)
   <-> name (context c1) = name (context c2))
  /\ fetchUserAge.execute a None
     = fetchUserAge.execute b
         (Some (mkRunContext {| name := "undefined"; uid := anyUid |})).
Proof.
  split; [| reflexivity]. unfold fetchUserAge.execute. split.
  - intros H. apply append_inj_l in H. apply append_inj_r in H. exact H.
  - intros ->. reflexivity.
Qed.

(** X4.  The approval test of [get_weather] is an exact comparison: a
    city that merely contains "San Francisco", with any text before or
    after it, needs no approval. *)
Theorem needsApproval_exact
  (ctx : RunContext UserInfo) (before after : string) :
  getWeather.needsApproval ctx (before ++ "San Francisco" ++ after) = true
  <-> before = "" /\ after = "".
Proof.
  rewrite needsApproval_iff. split.
  - intros H. apply (f_equal String.length) in H.
    rewrite !length_append in H. simpl in H.
    split; apply length_zero_empty; lia.
  - intros [-> ->]. reflexivity.
Qed.

(** X5.  The report of [get_weather] names its city: two calls return
    the same text only for the same city, so the report for
    "San Francisco" comes from the gated call and from no other. *)
Theorem getWeather_report_names_city
  (ctx : RunContext UserInfo) (city other : string) :
  (getWeather.execute city = getWeather.execute other <-> city = other)
  /\ (getWeather.execute city = "The weather in San Francisco is sunny."
      <-> getWeather.needsApproval ctx city = true).
Proof.
  assert (Hinj : forall x y,
             getWeather.execute x = getWeather.execute y -> x = y).
  { unfold getWeather.execute. intros x y H.
    apply append_inj_l in H. apply append_inj_r in H. exact H. }
  split.
  - split; [apply Hinj | intros ->; reflexivity].
  - rewrite needsApproval_iff. split.
    + intros H. apply Hinj. exact H.
    + intros ->. reflexivity.
Qed.

(** ** The chat loop, from start to end *)

Section Sessions.
Import Process Observe Census.

Variable env : Env.

(** How the loop can end normally: at once, on a sentinel already read,
    or after a question that was answered with the sentinel. *)
Lemma chatLoop_ends_on_sentinel (fuel : nat) :
  forall h up p hf,
    completion (chatLoop env fuel h up p) = Normal hf ->
    (up = "/bye" /\ hf = h /\ trace (chatLoop env fuel h up p) = [])
    \/ (exists t q h',
           trace (chatLoop env fuel h up p) = t ++ [EvQuestion q "/bye"]
           /\ hf = h' ++ [user "/bye"]).
Proof.
  induction fuel as [| fuel IH]; intros h up p hf; [discriminate |].
  destruct (chatLoop_cases env fuel h up p)
    as [[Hbye E] | [(e & _ & E) | [(r & out & Hup & _ & _ & _ & _ & E)
       | [(r & Hup & _ & _ & E) | (r & out & _ & _ & _ & _ & _ & E)]]]];
    rewrite E; cbn [completion trace fst snd]; try discriminate.
  - intros H. injection H as <-. left. auto.
  - intros H. right. apply IH in H.
    destruct H as [(Ha & Hh & Ht) | (t & q & h' & Ht & Hh)].
    + rewrite Ht, Hh, Ha.
      exists [EvRun h (Fulfilled r)], (prompt_of out), (history r).
      split; reflexivity.
    + rewrite Ht.
      exists (EvRun h (Fulfilled r)
                :: EvQuestion (prompt_of out)
                     (question env (questions p) (prompt_of out)) :: t),
        q, h'.
      split; [reflexivity | exact Hh].
  - intros H. right. apply IH in H.
    destruct H as [(Ha & _) | (t & q & h' & Ht & Hh)]; [contradiction |].
    rewrite Ht.
    exists (EvRun h (Fulfilled r) :: t), q, h'.
    split; [reflexivity | exact Hh].
Qed.


Lemma chat_events_count_nothing (f : Event -> bool) (t : list Event) :
  (forall e, chat_event e = true -> f e = false) ->
  forallb chat_event t = true ->
  count f t = 0.
Proof.
  intros Hf. unfold count. induction t as [| e t IH]; [reflexivity |].
  simpl. intros H. apply andb_prop in H. destruct H as [He Ht].
  rewrite (Hf e He). auto.
Qed.

Lemma count_app (f : Event -> bool) (t1 t2 : list Event) :
  count f (t1 ++ t2) = count f t1 + count f t2.
Proof. unfold count. rewrite filter_app. apply length_app. Qed.

End Sessions.

Section SessionFacts.
Import Process Observe Census.

(** X6.  [runChat] sends its prompt to the agents before anything else,
    whatever the prompt is: the sentinel is compared with the answers to
    later questions only, so "/bye" given as the prompt starts a run like
    any other text. *)
Theorem runChat_runs_initial_prompt
  (env : Env) (fuel : nat) (actionPrompt : string) (p : Proc) :
  exists rest,
    trace (runChat env (S fuel) actionPrompt p)
    = EvRun [user actionPrompt] (run env (runs p) [user actionPrompt]) :: rest.
Proof.
  rewrite runChat_result.
  destruct (chatLoop_first_event env fuel [user actionPrompt] "" p)
    as [rest E]; [discriminate |].
  destruct (chatLoop env (S fuel) [user actionPrompt] "" p) as [[c p'] t].
  cbn [trace snd] in E. subst t.
  destruct c; eexists; reflexivity.
Qed.

(** X7.  When [runChat] exits, the code is 0, the last answer the user
    gave was the sentinel, and the history written to standard output
    ends with the sentinel as a user message. *)
Theorem runChat_exit_transcript
  (env : Env) (fuel : nat) (actionPrompt : string) (p : Proc) (code : Z) :
  completion (runChat env fuel actionPrompt p) = Exit code ->
  code = 0%Z
  /\ exists t q h,
       trace (runChat env fuel actionPrompt p)
       = t ++ [EvQuestion q "/bye"] ++ farewell env (h ++ [user "/bye"]).
Proof.
  rewrite runChat_result.
  pose proof (chatLoop_ends_on_sentinel env fuel [user actionPrompt] "" p) as He.
  pose proof (chatLoop_no_exit env fuel [user actionPrompt] "" p) as Hno.
  destruct (chatLoop env fuel [user actionPrompt] "" p) as [[c p'] t].
  destruct c as [hf | e | code' |]; cbn [completion fst]; try discriminate.
  - intros H. injection H as <-. split; [reflexivity |].
    destruct (He hf eq_refl) as [(Hbye & _) | (t' & q & h' & Ht & Hh)];
      [discriminate |].
    cbn [trace snd] in *. subst t hf. exists t', q, h'.
    rewrite <- app_assoc. reflexivity.
  - intros _. exfalso. apply (Hno code'). reflexivity.
Qed.

Lemma runChat_exit_transcript_witness :
  exists t q h,
    trace (runChat Samples.session 2 "hi" at_chat)
    = t ++ [EvQuestion q "/bye"] ++ farewell Samples.session (h ++ [user "/bye"]).
Proof.
  apply (proj2 (runChat_exit_transcript Samples.session 2 "hi" at_chat 0
                  eq_refl)).
Defined.



(** X9.  [runChat] never returns to its caller: it ends by
    [process.exit(0)], or it throws, or it is still in its loop. *)
Theorem runChat_three_ends
  (env : Env) (fuel : nat) (actionPrompt : string) (p : Proc) :
  completion (runChat env fuel actionPrompt p) = Exit 0%Z
  \/ (exists e, completion (runChat env fuel actionPrompt p) = Throw e)
  \/ completion (runChat env fuel actionPrompt p) = Pending.
Proof.
  rewrite runChat_result.
  pose proof (chatLoop_no_exit env fuel [user actionPrompt] "" p) as Hno.
  destruct (chatLoop env fuel [user actionPrompt] "" p) as [[c p'] t].
  destruct c as [hf | e | code' |]; cbn [completion fst].
  - left. reflexivity.
  - right. left. exists e. reflexivity.
  - exfalso. apply (Hno code'). reflexivity.
  - right. right. reflexivity.
Qed.

(** X10.  While the line reader is open, as it is on a terminal, a line
    that is not the sentinel goes to the agents: the next run is called
    on the history the previous run returned, followed by that line as a
    user message. *)
Theorem user_line_reaches_next_run
  (env : Env) (fuel : nat) (h : History) (up out : string) (r : RunResult)
  (p : Proc) :
  up <> "/bye" ->
  run env (runs p) h = Fulfilled r ->
  finalOutput r = Some out ->
  out <> "" ->
  rlClosed p = false ->
  let answer := question env (questions p) (prompt_of out) in
  answer <> "/bye" ->
  exists rest,
    trace (chatLoop env (S (S fuel)) h up p)
    = EvRun h (Fulfilled r)
        :: EvQuestion (prompt_of out) answer
        :: EvRun (history r ++ [user answer])
             (run env (S (runs p)) (history r ++ [user answer]))
        :: rest.
Proof.
  intros Hup Hrun Hout Hne Hopen answer Hans.
  pose proof (chatLoop_truthy env (S fuel) h up out r p Hup Hrun Hout Hne Hopen)
    as E.
  cbv zeta in E. fold answer in E. rewrite E.
  destruct (chatLoop_first_event env fuel (history r ++ [user answer]) answer
              (count_question (count_run p)) Hans) as [rest E'].
  exists rest. rewrite E'. reflexivity.
Qed.

Lemma user_line_reaches_next_run_witness :
  exists rest,
    trace (chatLoop chatty 2 [user "hi"] "" at_chat)
    = EvRun [user "hi"]
        (Fulfilled {| finalOutput := Some "Hello";
                      history := [user "hi"; AssistantMessage "Hello"] |})
        :: EvQuestion (prompt_of "Hello") "more"
        :: EvRun [user "hi"; AssistantMessage "Hello"; user "more"]
             (run chatty 1 [user "hi"; AssistantMessage "Hello"; user "more"])
        :: rest.
Proof.
  apply (user_line_reaches_next_run chatty 0 [user "hi"] "" "Hello"
           {| finalOutput := Some "Hello";
              history := [user "hi"; AssistantMessage "Hello"] |}
           at_chat);
    (reflexivity || discriminate).
Defined.

(** X11.  The loop asks at most one question per run: in every trace of
    the loop the questions do not outnumber the runs. *)
Theorem questions_never_outnumber_runs
  (env : Env) (fuel : nat) (h : History) (up : string) (p : Proc) :
  count is_question (trace (chatLoop env fuel h up p))
  <= count is_run (trace (chatLoop env fuel h up p)).
Proof.
  unfold count. revert h up p.
  induction fuel as [| fuel IH]; intros h up p; [simpl; lia |].
  destruct (chatLoop_cases env fuel h up p)
    as [[Hbye E] | [(e' & _ & E) | [(r & out & Hup & _ & _ & _ & _ & E)
       | [(r & Hup & _ & _ & E) | (r & out & _ & _ & _ & _ & _ & E)]]]];
    rewrite E; cbn [completion trace fst snd]; simpl; try lia.
  - specialize (IH (history r ++ [user (question env (questions p) (prompt_of out))])
                  (question env (questions p) (prompt_of out))
                  (count_question (count_run p))).
    lia.
  - specialize (IH (history r) up (count_run p)). lia.
Qed.

End SessionFacts.

(** ** The whole program, on every path *)

Section Shapes.
Import Process Observe Census.

Variable env : Env.
Variable fuel : nat.

(** Every execution is a prelude, the events of a chat and a finale, in
    one of eight combinations. *)
Lemma execute_shapes :
  exists c pre t post,
    observed (execute env fuel) = (c, pre ++ t ++ post)
    /\ forallb chat_event t = true
    /\ shape env c pre post.
Proof.
  destruct (handshake env mcpHttpServer) as [e |] eqn:H1.
  { exists (Normal tt), [EvConnect mcpHttpServer (RejectedWith e)], [],
      (teardown ++ [EvConsoleError e]).
    split; [apply (execute_http_rejected env fuel e H1) |].
    split; [reflexivity |]. left. exists e. auto. }
  destruct (handshake env mcpFilesystemServer) as [e |] eqn:H2.
  { exists (Normal tt),
      [EvConnect mcpHttpServer (Fulfilled tt);
       EvConnect mcpFilesystemServer (RejectedWith e)], [],
      (teardown ++ [EvConsoleError e]).
    split; [apply (execute_fs_rejected env fuel e H1 H2) |].
    split; [reflexivity |]. right. left. exists e. auto. }
  destruct (isTTY env) eqn:Htty.
  - pose proof (execute_tty env fuel H1 H2 Htty) as E. cbv zeta in E.
    set (first := question env 0 first_prompt) in *.
    destruct (JS.truthy first).
    + pose proof (chatLoop_events env fuel [user first] "" at_chat) as Hev.
      pose proof (chatLoop_no_exit env fuel [user first] "" at_chat) as Hno.
      destruct (chatLoop env fuel [user first] "" at_chat) as [[c p'] t].
      cbn [trace snd] in Hev.
      destruct c as [h | e | code' |].
      * exists (Exit 0%Z), (startup ++ [EvQuestion first_prompt first]), t,
          (farewell env h).
        split; [exact E |]. split; [exact Hev |].
        do 3 right. left. exists first, h. auto.
      * exists (Normal tt), (startup ++ [EvQuestion first_prompt first]), t,
          (teardown ++ [EvConsoleError e]).
        split; [exact E |]. split; [exact Hev |].
        do 2 right. left. exists first, e. auto.
      * exfalso. apply (Hno code'). reflexivity.
      * exists Pending, (startup ++ [EvQuestion first_prompt first]), t, [].
        split; [rewrite app_nil_r; exact E |]. split; [exact Hev |].
        do 4 right. left. exists first. auto.
    + exists (Normal tt), (startup ++ [EvQuestion first_prompt first]), [],
        (teardown ++ [EvConsoleError "No input prompt provided"]).
      split; [exact E |]. split; [reflexivity |].
      do 2 right. left. exists first, "No input prompt provided". auto.
  - destruct (lateEnd env) eqn:Hlate.
    2:{ exists (Normal tt), (startup ++ teardown), [], [].
        split; [apply (execute_piped_early env fuel H1 H2 Htty Hlate) |].
        split; [reflexivity |]. do 5 right. left. auto. }
    pose proof (execute_piped env fuel H1 H2 Htty Hlate) as E.
    pose proof (chatLoop_events env fuel [user (stdinInput env)] ""
                  at_piped_chat) as Hev.
    pose proof (chatLoop_no_exit env fuel [user (stdinInput env)] ""
                  at_piped_chat) as Hno.
    pose proof (chatLoop_closed_never_ends env fuel [user (stdinInput env)] ""
                  at_piped_chat) as Hnever.
    destruct (chatLoop env fuel [user (stdinInput env)] "" at_piped_chat)
      as [[c p'] t].
    cbn [trace snd] in Hev.
    destruct c as [h | e | code' |].
    + exfalso. apply (Hnever h eq_refl); [discriminate | reflexivity].
    + exists (Throw e), (startup ++ teardown), t, [].
      split; [rewrite app_nil_r, <- app_assoc; exact E |].
      split; [exact Hev |].
      do 6 right. left. exists e. auto.
    + exfalso. apply (Hno code'). reflexivity.
    + exists Pending, (startup ++ teardown), t, [].
      split; [rewrite app_nil_r, <- app_assoc; exact E |].
      split; [exact Hev |].
      do 7 right. auto.
Qed.

End Shapes.

Section ProgramFacts.
Import Process Observe Census.

Ltac chat_silent :=
  apply chat_events_count_nothing; auto;
  intros ev; destruct ev; simpl; intros Hsilent;
  (reflexivity || discriminate).

Ltac by_shape env fuel :=
  let c := fresh "c" in
  let pre := fresh "pre" in
  let t := fresh "t" in
  let post := fresh "post" in
  let E := fresh "E" in
  let Hev := fresh "Hev" in
  let Hs := fresh "Hs" in
  let Hc := fresh "Hc" in
  let Ht := fresh "Ht" in
  destruct (execute_shapes env fuel) as (c & pre & t & post & E & Hev & Hs);
  apply observed_eq in E; destruct E as [Hc Ht]; rewrite ?Hc, ?Ht;
  rewrite ?count_app.

(** X12.  The program never calls [connect()] twice and never calls
    [close()] twice on the same capability server. *)
Theorem no_second_connect_or_close (env : Env) (fuel : nat) (s : Server) :
  count (is_connect s) (trace (execute env fuel)) <= 1
  /\ count (is_close s) (trace (execute env fuel)) <= 1.
Proof.
  by_shape env fuel.
  assert (H1 : count (is_connect s) t = 0) by chat_silent.
  assert (H2 : count (is_close s) t = 0) by chat_silent.
  rewrite H1, H2.
  destruct Hs as [(e & _ & -> & ->) | [(e & _ & -> & ->)
    | [(f & e & _ & -> & ->) | [(f & h & _ & -> & ->) | [(f & _ & -> & ->)
    | [(_ & -> & ->) | [(e & _ & -> & ->) | (_ & -> & ->)]]]]]]];
    destruct s; cbv; lia.
Qed.

(** X13.  An error that reaches [main().catch] is printed once, as the
    last thing the program does and after both servers were closed; the
    program then has not called [process.exit].  No path prints two
    errors. *)
Theorem logged_error_is_last (env : Env) (fuel : nat) :
  count is_error (trace (execute env fuel)) <= 1
  /\ (count is_error (trace (execute env fuel)) = 1 ->
      completion (execute env fuel) = Normal tt
      /\ count is_exit (trace (execute env fuel)) = 0
      /\ exists t e,
           trace (execute env fuel) = t ++ teardown ++ [EvConsoleError e]).
Proof.
  by_shape env fuel.
  assert (H1 : count is_error t = 0) by chat_silent.
  assert (H2 : count is_exit t = 0) by chat_silent.
  rewrite H1, H2.
  destruct Hs as [(e & -> & -> & ->) | [(e & -> & -> & ->)
    | [(f & e & -> & -> & ->) | [(f & h & -> & -> & ->) | [(f & -> & -> & ->)
    | [(-> & -> & ->) | [(e & -> & -> & ->) | (-> & -> & ->)]]]]]]];
    unfold count; simpl; (split; [lia |]); intros Hone; try discriminate;
    (split; [reflexivity |]); (split; [reflexivity |]).
  - exists (EvConnect mcpHttpServer (RejectedWith e) :: t), e. reflexivity.
  - exists (EvConnect mcpHttpServer (Fulfilled tt)
              :: EvConnect mcpFilesystemServer (RejectedWith e) :: t), e.
    reflexivity.
  - exists ((startup ++ [EvQuestion first_prompt f]) ++ t), e. reflexivity.
Qed.

Lemma logged_error_is_last_witness :
  completion (execute Samples.no_prompt 2) = Normal tt
  /\ count is_exit (trace (execute Samples.no_prompt 2)) = 0
  /\ exists t e,
       trace (execute Samples.no_prompt 2) = t ++ teardown ++ [EvConsoleError e].
Proof.
  apply (proj2 (logged_error_is_last Samples.no_prompt 2)). reflexivity.
Defined.

(** X15.  The history is written to standard output exactly when the
    process exits, and at most once: the number of writes equals the
    number of [process.exit] calls, which is 1 when the program ended by
    exiting and 0 otherwise. *)
Theorem transcript_written_iff_exit (env : Env) (fuel : nat) :
  count is_stdout (trace (execute env fuel))
  = count is_exit (trace (execute env fuel))
  /\ (completion (execute env fuel) = Exit 0%Z
      <-> count is_exit (trace (execute env fuel)) = 1)
  /\ (completion (execute env fuel) <> Exit 0%Z
      <-> count is_exit (trace (execute env fuel)) = 0).
Proof.
  by_shape env fuel.
  assert (H1 : count is_stdout t = 0) by chat_silent.
  assert (H2 : count is_exit t = 0) by chat_silent.
  rewrite H1, H2.
  destruct Hs as [(e & -> & -> & ->) | [(e & -> & -> & ->)
    | [(f & e & -> & -> & ->) | [(f & h & -> & -> & ->) | [(f & -> & -> & ->)
    | [(-> & -> & ->) | [(e & -> & -> & ->) | (-> & -> & ->)]]]]]]];
    unfold count; simpl; repeat split; intros; try discriminate;
    try reflexivity; try congruence; try lia.
Qed.

End ProgramFacts.

Section Startup.
Import Process Observe Census.

(** X14.  On a terminal, once both servers are connected, any non-empty
    first line starts the chat: the first run is called on exactly that
    line as the only user message.  Only emptiness is tested, so a blank
    or the sentinel itself is sent to the agents too. *)
Theorem first_line_starts_run (env : Env) (fuel : nat) :
  handshake env mcpHttpServer = None ->
  handshake env mcpFilesystemServer = None ->
  isTTY env = true ->
  let first := question env 0 first_prompt in
  first <> "" ->
  exists rest,
    trace (execute env (S fuel))
    = startup
        ++ [EvQuestion first_prompt first;
            EvRun [user first] (run env 0 [user first])]
        ++ rest.
Proof.
  intros H1 H2 Htty first Hfirst.
  pose proof (execute_tty env (S fuel) H1 H2 Htty) as E. cbv zeta in E.
  fold first in E. apply truthy_true_iff_nonempty in Hfirst.
  rewrite Hfirst in E.
  destruct (chatLoop_first_event env fuel [user first] "" at_chat)
    as [rest Hrest]; [discriminate |].
  destruct (chatLoop env (S fuel) [user first] "" at_chat) as [[c p'] t].
  cbn [trace snd] in Hrest. subst t.
  destruct c; apply observed_eq in E; destruct E as [_ Ht]; rewrite Ht;
    eexists; reflexivity.
Qed.

Lemma first_line_starts_run_witness :
  exists rest,
    trace (execute Samples.session 1)
    = startup
        ++ [EvQuestion first_prompt "hi";
            EvRun [user "hi"] (run Samples.session 0 [user "hi"])]
        ++ rest.
Proof.
  apply (first_line_starts_run Samples.session 0 eq_refl eq_refl eq_refl).
  discriminate.
Defined.

(** X16.  The agents have pairwise different names; the triage agent is
    the only agent with handoff targets; and each of its targets is the
    name of an agent that hands off to nobody.  So the handoffs form a
    star around the triage agent, without a cycle. *)
Theorem handoffs_form_a_star :
  NoDup (map agent_name agents)
  /\ (forall a, In a agents -> leaf a = false -> a = triageAgent)
  /\ (forall target,
         In target (agent_handoffs triageAgent) ->
         target <> agent_name triageAgent
         /\ exists b, In b agents /\ agent_name b = target /\ leaf b = true).
Proof.
  split; [| split].
  - repeat (constructor;
            [simpl; intros H;
             repeat (destruct H as [H | H]; [discriminate |]); exact H |]).
    constructor.
  - intros a Ha Hleaf. simpl in Ha.
    repeat (destruct Ha as [<- | Ha]; [try discriminate Hleaf |]);
      try contradiction.
    reflexivity.
  - intros target Ht.
    destruct Ht as [<- | [<- | [<- | [<- | [<- | []]]]]];
      (split; [discriminate |]).
    + exists fileSystemAgent. repeat split. simpl. auto 10.
    + exists historyTutorAgent. repeat split. simpl. auto 10.
    + exists mathTutorAgent. repeat split. simpl. auto 10.
    + exists userAgeAgent. repeat split. simpl. auto 10.
    + exists weatherAgent. repeat split. simpl. auto 10.
Qed.

End Startup.
